(** * Management clients of the Auth0 node SDK: validation, delegation, retry

    A shallow embedding of [src/management/UsersManager.js], of the
    [ConnectionsManager] and of the legacy [Users] class, together with the
    properties of the specification that concern them.

    JavaScript values are a small inductive type, objects are finite maps
    from property names to values, a method receives its [arguments] as a
    list, and a method body is the tree of its effects (calls on the REST
    clients it owns, writes to global variables, exceptions), which an
    interpreter runs against an explicit world: the global variables, the
    state of the remote API and the log of the client calls. *)

#[local] Set Warnings "-register-all".
From Stdlib Require Import ZArith Ascii String List Bool Lia.
From stdpp Require Import base option gmap strings list pretty.
Import ListNotations.

Open Scope string_scope.

(** ** JavaScript values *)

Module JS.

(** The values the managers inspect.  Numbers are the integers together
    with [NaN]; an object is its table of own data properties, a function
    is an object that is callable.  Object identity, getters and the
    members of the built-in prototypes are not modelled: none of the
    property names the source reads ([id], [user_id], [provider],
    [baseUrl], [headers], [retry], [tokenProvider]) is a prototype
    member. *)
Inductive value : Type :=
| VUndefined
| VNull
| VBool (b : bool)
| VNum (n : Z)
| VNaN
| VStr (s : string)
| VObject (props : gmap string value)
| VFunction (props : gmap string value).

(** The results of [typeof]. *)
Inductive type_tag : Type :=
| TUndefined | TObject | TBoolean | TNumber | TString | TFunction.

#[global] Instance type_tag_eq_dec : EqDecision type_tag.
Proof. solve_decision. Defined.

(** [typeof v]; note [typeof null === 'object']. *)
Definition typeof (v : value) : type_tag :=
  match v with
  | VUndefined => TUndefined
  | VNull => TObject
  | VBool _ => TBoolean
  | VNum _ | VNaN => TNumber
  | VStr _ => TString
  | VObject _ => TObject
  | VFunction _ => TFunction
  end.

(** [ToBoolean]: the falsy values are [undefined], [null], [false], [0],
    [NaN] and the empty string. *)
Definition truthy (v : value) : bool :=
  match v with
  | VUndefined | VNull | VNaN => false
  | VBool b => b
  | VNum n => negb (n =? 0)%Z
  | VStr s => negb (String.eqb s "")
  | VObject _ | VFunction _ => true
  end.

(** [cb instanceof Function]. *)
Definition instanceof_Function (v : value) : bool :=
  match v with VFunction _ => true | _ => false end.

(** The exceptions a manager method can end with. *)
Inductive exn : Type :=
| ArgumentError (message : string)
| TypeError (message : string)
| ReferenceError (message : string).

(** Reading the property [v.k].  On [undefined] and [null] the read
    throws a [TypeError]; on the other primitives it yields [undefined]
    (except the [length] of a string); on objects and functions it is the
    lookup in the property table. *)
Definition get (v : value) (k : string) : exn + value :=
  match v with
  | VUndefined => inl (TypeError ("Cannot read properties of undefined (reading '" ++ k ++ "')"))
  | VNull => inl (TypeError ("Cannot read properties of null (reading '" ++ k ++ "')"))
  | VBool _ | VNum _ | VNaN => inr VUndefined
  | VStr s =>
      if String.eqb k "length" then inr (VNum (Z.of_nat (String.length s)))
      else inr VUndefined
  | VObject props | VFunction props => inr (default VUndefined (props !! k))
  end.

(** [a === b] where one side is a primitive literal.  Two objects are
    equal when they are the same object, which this model cannot tell, so
    the comparison is only used against [null], [undefined] and number
    literals, as the source does. *)
Definition strict_eq (a b : value) : bool :=
  match a, b with
  | VUndefined, VUndefined => true
  | VNull, VNull => true
  | VBool x, VBool y => Bool.eqb x y
  | VNum x, VNum y => (x =? y)%Z
  | VStr x, VStr y => String.eqb x y
  | _, _ => false
  end.

(** [ToString].  It is the conversion of the language on strings,
    booleans, [undefined], [null], [NaN] and the integers below 10^21 in
    absolute value; beyond that, and on objects and functions, whose own
    [toString] the language would run, it only stands in for it.  The
    statements of this file apply it to strings and to [undefined]
    alone. *)
Definition to_string (v : value) : string :=
  match v with
  | VUndefined => "undefined"
  | VNull => "null"
  | VBool true => "true"
  | VBool false => "false"
  | VNum n => pretty n
  | VNaN => "NaN"
  | VStr s => s
  | VObject _ => "[object Object]"
  | VFunction _ => "function () { [native code] }"
  end.

(** [v + 'literal']: string concatenation. *)
Definition plus (v : value) (s : string) : value :=
  VStr (to_string v ++ s).

(** [a || b] on values. *)
Definition or_else (a b : value) : value := if truthy a then a else b.

(** The object literal [{}]. *)
Definition empty_object : value := VObject ∅.

(** [arguments[i]], which is also the value of the i-th formal
    parameter: [undefined] when the caller passed fewer arguments. *)
Definition arg (i : nat) (args : list value) : value :=
  nth i args VUndefined.

End JS.
Import JS.

(** ** REST clients and the calls made on them *)

Module Rest.

(** Modelled from the spec: the classes [Auth0RestClient] and
    [RetryRestClient] of this repository and the [Client] class of
    rest-facade are not under src/.  A client is "addressed by a URL
    template" and "configured once per client instance", so constructing
    one only records the arguments of [new]: the URL template, the
    options object, the token provider, and for the retry decorator the
    wrapped client and the retry configuration. *)
Inductive rest_client : Type :=
| RestClient (resourceUrl : value) (options : value)
| Auth0RestClient (resourceUrl : value) (options : value) (tokenProvider : value)
| RetryRestClient (restClient : rest_client) (retry : value).

(** The URL template a client was built from. *)
Fixpoint resource_url (c : rest_client) : value :=
  match c with
  | RestClient u _ | Auth0RestClient u _ _ => u
  | RetryRestClient c' _ => resource_url c'
  end.

(** One method call [client.method(args...)]. *)
Record call : Type := Call {
  on : rest_client;
  method : string;
  args : list value
}.

Inductive verb : Type := GET | POST | PATCH | DELETE.

#[global] Instance verb_eq_dec : EqDecision verb.
Proof. solve_decision. Defined.

(** Modelled from the spec: the table from client operations to HTTP
    methods belongs to the REST client, which is not under src/.  The
    client "implements create, get, getAll, update(patch), delete as HTTP
    verb calls", with "POST for create, GET for get/getAll, PATCH for
    update, DELETE for delete". *)
Definition http_method (m : string) : option verb :=
  if String.eqb m "create" then Some POST
  else if String.eqb m "get" then Some GET
  else if String.eqb m "getAll" then Some GET
  else if String.eqb m "update" then Some PATCH
  else if String.eqb m "patch" then Some PATCH
  else if String.eqb m "delete" then Some DELETE
  else None.

(** Modelled from the spec: "exactly one network call per invocation
    (absent retry)"; the HTTP requests that a sequence of client calls
    amounts to, one per call of a known operation. *)
Definition http_requests (cs : list call) : list verb :=
  omap (fun c => http_method (method c)) cs.

End Rest.
Import Rest.

(** ** Effects of a manager method *)

Module Effects.

(** A method body as a tree of its effects: it returns, throws, calls a
    method of a REST client and continues with what the client returned,
    assigns a global variable (an assignment to an undeclared identifier
    in a module that is not in strict mode), or reads one. *)
Inductive prog (A : Type) : Type :=
| Ret (a : A)
| Throw (e : exn)
| Invoke (c : call) (k : value -> prog A)
| SetGlobal (name : string) (v : value) (k : prog A)
| GetGlobal (name : string) (k : value -> prog A).

Arguments Ret {A} a.
Arguments Throw {A} e.
Arguments Invoke {A} c k.
Arguments SetGlobal {A} name v k.
Arguments GetGlobal {A} name k.

Fixpoint bind {A B : Type} (p : prog A) (f : A -> prog B) : prog B :=
  match p with
  | Ret a => f a
  | Throw e => Throw e
  | Invoke c k => Invoke c (fun v => bind (k v) f)
  | SetGlobal x v k => SetGlobal x v (bind k f)
  | GetGlobal x k => GetGlobal x (fun v => bind (k v) f)
  end.

(** [client.method(args...)], returning what the client returns. *)
Definition invoke (c : rest_client) (m : string) (args : list value) : prog value :=
  Invoke (Call c m args) Ret.

(** A property read, which may throw. *)
Definition read (v : value) (k : string) : prog value :=
  match JS.get v k with
  | inl e => Throw e
  | inr x => Ret x
  end.

(** How a method ends. *)
Inductive completion (A : Type) : Type :=
| Returned (a : A)
| Thrown (e : exn).

Arguments Returned {A} a.
Arguments Thrown {A} e.

(** The state outside the manager instances: the global variables of the
    process, the state of the remote API, and the log of the client
    calls made so far, oldest first. *)
Record world (remote : Type) : Type := World {
  globals : gmap string value;
  server : remote;
  calls : list call
}.

Arguments World {remote} globals server calls.
Arguments globals {remote} w.
Arguments server {remote} w.
Arguments calls {remote} w.

Section Run.
Context {remote : Type}.

(** What a client call returns and what it does to the remote API. *)
Variable perform : call -> remote -> value * remote.

(** The run of a method against a client all of whose calls return: it
    says which calls a method makes, with which arguments, and what it
    does with their results.  What a method does when a call throws is
    [run_raising] below. *)
Fixpoint run {A : Type} (p : prog A) (w : world remote) : completion A * world remote :=
  match p with
  | Ret a => (Returned a, w)
  | Throw e => (Thrown e, w)
  | Invoke c k =>
      let '(v, s) := perform c (server w) in
      run (k v) (World (globals w) s (calls w ++ [c]))
  | SetGlobal x v k =>
      run k (World (<[x := v]> (globals w)) (server w) (calls w))
  | GetGlobal x k =>
      match globals w !! x with
      | Some v => run (k v) w
      | None => (Thrown (ReferenceError (x ++ " is not defined")), w)
      end
  end.
End Run.

(** How a method ends when the client call itself may throw: it returns,
    it throws an exception of its own, or it passes on what the client
    threw, which can be anything. *)
Inductive ending (X A : Type) : Type :=
| Done (a : A)
| Raised (e : exn)
| Failed (x : X).

Arguments Done {X A} a.
Arguments Raised {X A} e.
Arguments Failed {X A} x.

Section RunRaising.
Context {remote X : Type}.

(** What the client answers to a call, a value or something thrown, and
    what the call does to the remote API. *)
Variable answer : call -> remote -> (X + value) * remote.

(** The run of a method against such a client.  A call that throws ends
    the method there: the call has been made, and nothing after it runs. *)
Fixpoint run_raising {A : Type} (p : prog A) (w : world remote)
    : ending X A * world remote :=
  match p with
  | Ret a => (Done a, w)
  | Throw e => (Raised e, w)
  | Invoke c k =>
      let '(r, s) := answer c (server w) in
      let w' := World (globals w) s (calls w ++ [c]) in
      match r with
      | inr v => run_raising (k v) w'
      | inl x => (Failed x, w')
      end
  | SetGlobal x v k =>
      run_raising k (World (<[x := v]> (globals w)) (server w) (calls w))
  | GetGlobal x k =>
      match globals w !! x with
      | Some v => run_raising (k v) w
      | None => (Raised (ReferenceError (x ++ " is not defined")), w)
      end
  end.
End RunRaising.

End Effects.
Import Effects.

#[global] Instance prog_ret : MRet prog := @Ret.
#[global] Instance prog_bind : MBind prog := fun A B f p => Effects.bind p f.

(** [a || b] where evaluating [b] has effects: [b] is not evaluated when
    [a] holds. *)
Definition or_p (a : bool) (b : prog bool) : prog bool :=
  if a then mret true else b.

(** The tail shared by the methods with an optional callback:
    [if (cb && cb instanceof Function) { return c.m(args..., cb); }
     return c.m(args...);] *)
Definition invoke_cb (c : rest_client) (m : string) (args : list value)
    (cb : value) : prog value :=
  if truthy cb && instanceof_Function cb
  then invoke c m (args ++ [cb])
  else invoke c m args.

(** ** src/management/UsersManager.js *)

Module UsersManager.

(** The fields [this.users], [this.multifactor], ... set by the
    constructor. *)
Record t : Type := Build {
  users : rest_client;
  multifactor : rest_client;
  identities : rest_client;
  userLogs : rest_client;
  enrollments : rest_client;
  usersByEmail : rest_client;
  recoveryCodeRegenerations : rest_client;
  invalidateRememberBrowsers : rest_client;
  roles : rest_client;
  permissions : rest_client;
  organizations : rest_client
}.

(** [var clientOptions = { errorFormatter: ..., headers: options.headers,
    query: { repeatParams: false } }] *)
Definition clientOptions (headers : value) : value :=
  VObject (<["errorFormatter" :=
               VObject (<["message" := VStr "message"]>
                        (<["name" := VStr "error"]> ∅))]>
           (<["headers" := headers]>
            (<["query" := VObject (<["repeatParams" := VBool false]> ∅)]> ∅))).

(** [var UsersManager = function(options) { ... }], each client taken as
    the record of the arguments it is constructed with.  The constructors
    of the clients are not under src/: what they may do besides, throw or
    extend the options they are given, is left open in [construct]
    below. *)
Definition new (options : value) : prog t :=
  if strict_eq options VNull || negb (bool_decide (typeof options = TObject))
  then Throw (ArgumentError "Must provide manager options")
  else
    baseUrl ← read options "baseUrl";
    if strict_eq baseUrl VNull || strict_eq baseUrl VUndefined
    then Throw (ArgumentError "Must provide a base URL for the API")
    else
      invalid ← or_p (negb (bool_decide (typeof baseUrl = TString)))
                     (len ← read baseUrl "length"; mret (strict_eq len (VNum 0)));
      if (invalid : bool)
      then Throw (ArgumentError "The provided base URL is invalid")
      else
        headers ← read options "headers";
        tokenProvider ← read options "tokenProvider";
        retry ← read options "retry";
        let client path :=
          RetryRestClient
            (Auth0RestClient (plus baseUrl path) (clientOptions headers) tokenProvider)
            retry in
        mret {|
          users := client "/users/:id";
          multifactor := client "/users/:id/multifactor/:provider";
          identities := client "/users/:id/identities/:provider/:user_id";
          userLogs := client "/users/:id/logs";
          enrollments := client "/users/:id/enrollments";
          usersByEmail := client "/users-by-email";
          recoveryCodeRegenerations := client "/users/:id/recovery-code-regeneration";
          invalidateRememberBrowsers :=
            client "/users/:id/multifactor/actions/invalidate-remember-browser";
          roles := client "/users/:id/roles";
          permissions := client "/users/:id/permissions";
          organizations := client "/users/:id/organizations"
        |}.

(** [UsersManager.prototype.create = function(data, cb)] *)
Definition create (this : t) (arguments : list value) : prog value :=
  let data := arg 0 arguments in
  let cb := arg 1 arguments in
  invoke_cb (users this) "create" [data] cb.

(** [return this.users.getAll.apply(this.users, arguments);] *)
Definition getAll (this : t) (arguments : list value) : prog value :=
  invoke (users this) "getAll" arguments.

(** [return this.users.get.apply(this.users, arguments);] *)
Definition get (this : t) (arguments : list value) : prog value :=
  invoke (users this) "get" arguments.

(** [return this.users.patch.apply(this.users, arguments);] *)
Definition update (this : t) (arguments : list value) : prog value :=
  invoke (users this) "patch" arguments.

(** [UsersManager.prototype.updateUserMetadata = function(params, metadata, cb)] *)
Definition updateUserMetadata (this : t) (arguments : list value) : prog value :=
  let params := arg 0 arguments in
  let metadata := arg 1 arguments in
  let cb := arg 2 arguments in
  let data := VObject (<["user_metadata" := metadata]> ∅) in
  invoke_cb (users this) "patch" [params; data] cb.

(** [UsersManager.prototype.updateAppMetadata = function(params, metadata, cb)] *)
Definition updateAppMetadata (this : t) (arguments : list value) : prog value :=
  let params := arg 0 arguments in
  let metadata := arg 1 arguments in
  let cb := arg 2 arguments in
  let data := VObject (<["app_metadata" := metadata]> ∅) in
  invoke_cb (users this) "patch" [params; data] cb.

(** [UsersManager.prototype.delete = function(params)] *)
Definition delete (this : t) (arguments : list value) : prog value :=
  let params := arg 0 arguments in
  invalid ← or_p (negb (bool_decide (typeof params = TObject)))
                 (id ← read params "id";
                  mret (negb (bool_decide (typeof id = TString))));
  if (invalid : bool)
  then Throw (ArgumentError "You must provide an id for the delete method")
  else invoke (users this) "delete" arguments.

(** [UsersManager.prototype.deleteAll = function(cb)] *)
Definition deleteAll (this : t) (arguments : list value) : prog value :=
  let cb := arg 0 arguments in
  if negb (bool_decide (typeof cb = TFunction))
  then Throw (ArgumentError "The deleteAll method only accepts a callback as argument")
  else invoke (users this) "delete" arguments.

(** The test [!params.k || typeof params.k !== 'string'] of the
    identifying fields. *)
Definition missing_or_not_string (params : value) (k : string) : prog bool :=
  x ← read params k;
  mret (negb (truthy x) || negb (bool_decide (typeof x = TString))).

(** [UsersManager.prototype.deleteMultifactorProvider = function(params, cb)] *)
Definition deleteMultifactorProvider (this : t) (arguments : list value) : prog value :=
  let params := or_else (arg 0 arguments) empty_object in
  let cb := arg 1 arguments in
  bad_id ← missing_or_not_string params "id";
  if (bad_id : bool)
  then Throw (ArgumentError "The id parameter must be a valid user id")
  else
    bad_provider ← missing_or_not_string params "provider";
    if (bad_provider : bool)
    then Throw (ArgumentError "Must specify a provider")
    else invoke_cb (multifactor this) "delete" [params] cb.

(** [UsersManager.prototype.unlink = function(params, cb)] *)
Definition unlink (this : t) (arguments : list value) : prog value :=
  let params := or_else (arg 0 arguments) empty_object in
  let cb := arg 1 arguments in
  bad_id ← missing_or_not_string params "id";
  if (bad_id : bool)
  then Throw (ArgumentError "id field is required")
  else
    bad_user_id ← missing_or_not_string params "user_id";
    if (bad_user_id : bool)
    then Throw (ArgumentError "user_id field is required")
    else
      bad_provider ← missing_or_not_string params "provider";
      if (bad_provider : bool)
      then Throw (ArgumentError "provider field is required")
      else invoke_cb (identities this) "delete" [params] cb.

(** The test [!params || !params.id]. *)
Definition no_id (params : value) : prog bool :=
  or_p (negb (truthy params))
       (id ← read params "id"; mret (negb (truthy id))).

(** [UsersManager.prototype.regenerateRecoveryCode = function(params, cb)] *)
Definition regenerateRecoveryCode (this : t) (arguments : list value) : prog value :=
  let params := arg 0 arguments in
  let cb := arg 1 arguments in
  missing ← no_id params;
  if (missing : bool)
  then Throw (ArgumentError "The userId cannot be null or undefined")
  else invoke_cb (recoveryCodeRegenerations this) "create" [params; empty_object] cb.

(** [UsersManager.prototype.invalidateRememberBrowser = function(params, cb)] *)
Definition invalidateRememberBrowser (this : t) (arguments : list value) : prog value :=
  let params := arg 0 arguments in
  let cb := arg 1 arguments in
  missing ← no_id params;
  if (missing : bool)
  then Throw (ArgumentError "The userId cannot be null or undefined")
  else invoke_cb (invalidateRememberBrowsers this) "create" [params; empty_object] cb.

(** The body shared, word for word, by [removeRoles] and
    [removePermissions]: [var query = params || {}; data = data || {};]
    then the two checks of [params.id], then the call. *)
Definition remove_from (c : rest_client) (arguments : list value) : prog value :=
  let params := arg 0 arguments in
  let cb := arg 2 arguments in
  let query := or_else params empty_object in
  let data := or_else (arg 1 arguments) empty_object in
  id ← read params "id";
  if negb (truthy id)
  then Throw (ArgumentError "The user_id cannot be null or undefined")
  else if negb (bool_decide (typeof id = TString))
  then Throw (ArgumentError "The user_id has to be a string")
  else invoke_cb c "delete" [query; data] cb.

(** [UsersManager.prototype.removeRoles = function(params, data, cb)] *)
Definition removeRoles (this : t) (arguments : list value) : prog value :=
  remove_from (roles this) arguments.

(** [UsersManager.prototype.removePermissions = function(params, data, cb)] *)
Definition removePermissions (this : t) (arguments : list value) : prog value :=
  remove_from (permissions this) arguments.

(** [UsersManager.prototype.link = function(userId, params, cb)] *)
Definition link (this : t) (arguments : list value) : prog value :=
  let userId := arg 0 arguments in
  let cb := arg 2 arguments in
  let query := VObject (<["id" := userId]> ∅) in
  let params := or_else (arg 1 arguments) empty_object in
  if negb (truthy userId)
  then Throw (ArgumentError "The userId cannot be null or undefined")
  else if negb (bool_decide (typeof userId = TString))
  then Throw (ArgumentError "The userId has to be a string")
  else invoke_cb (identities this) "create" [query; params] cb.

(** [UsersManager.prototype.logs = function(params, cb)]; the callback is
    passed on as it is, without the test the other methods make. *)
Definition logs (this : t) (arguments : list value) : prog value :=
  let params := or_else (arg 0 arguments) empty_object in
  let cb := arg 1 arguments in
  bad_id ← missing_or_not_string params "id";
  if (bad_id : bool)
  then Throw (ArgumentError "id field is required")
  else invoke (userLogs this) "get" [params; cb].

(** [return this.enrollments.get.apply(this.enrollments, arguments);] *)
Definition getGuardianEnrollments (this : t) (arguments : list value) : prog value :=
  invoke (enrollments this) "get" arguments.

(** [return this.roles.getAll.apply(this.roles, arguments);] *)
Definition getRoles (this : t) (arguments : list value) : prog value :=
  invoke (roles this) "getAll" arguments.

(** The body shared, word for word, by [assignRoles] and
    [assignPermissions]: that of [removeRoles] with [create] in the place
    of [delete]. *)
Definition assign_to (c : rest_client) (arguments : list value) : prog value :=
  let params := arg 0 arguments in
  let cb := arg 2 arguments in
  let query := or_else params empty_object in
  let data := or_else (arg 1 arguments) empty_object in
  id ← read params "id";
  if negb (truthy id)
  then Throw (ArgumentError "The user_id cannot be null or undefined")
  else if negb (bool_decide (typeof id = TString))
  then Throw (ArgumentError "The user_id has to be a string")
  else invoke_cb c "create" [query; data] cb.

(** [UsersManager.prototype.assignRoles = function(params, data, cb)] *)
Definition assignRoles (this : t) (arguments : list value) : prog value :=
  assign_to (roles this) arguments.

(** [return this.permissions.getAll.apply(this.permissions, arguments);] *)
Definition getPermissions (this : t) (arguments : list value) : prog value :=
  invoke (permissions this) "getAll" arguments.

(** [UsersManager.prototype.assignPermissions = function(params, data, cb)] *)
Definition assignPermissions (this : t) (arguments : list value) : prog value :=
  assign_to (permissions this) arguments.

(** [return this.organizations.getAll.apply(this.organizations, arguments);] *)
Definition getUserOrganizations (this : t) (arguments : list value) : prog value :=
  invoke (organizations this) "getAll" arguments.

(** The methods of the prototype in source order, all but [getByEmail],
    whose helper [sanitizeArguments] is not under src/. *)
Definition prototype : list (string * (t -> list value -> prog value)) :=
  [ ("create", create); ("getAll", getAll); ("get", get); ("update", update);
    ("updateUserMetadata", updateUserMetadata);
    ("updateAppMetadata", updateAppMetadata);
    ("delete", delete); ("deleteAll", deleteAll);
    ("deleteMultifactorProvider", deleteMultifactorProvider);
    ("link", link); ("unlink", unlink); ("logs", logs);
    ("getGuardianEnrollments", getGuardianEnrollments);
    ("regenerateRecoveryCode", regenerateRecoveryCode);
    ("invalidateRememberBrowser", invalidateRememberBrowser);
    ("getRoles", getRoles); ("assignRoles", assignRoles);
    ("removeRoles", removeRoles); ("getPermissions", getPermissions);
    ("assignPermissions", assignPermissions);
    ("removePermissions", removePermissions);
    ("getUserOrganizations", getUserOrganizations) ].

Section Construct.

(** [new Auth0RestClient(resourceUrl, options, tokenProvider)].  The class
    is not under src/, so the constructor is left open: a program that may
    throw, and that may extend the options object it is given.  It returns
    the client together with the state in which it leaves that object,
    which is the one object [clientOptions] that every construction
    receives. *)
Variable newAuth0RestClient : value -> value -> value -> prog (rest_client * value).

(** [new RetryRestClient(restClient, options.retry)], left open likewise. *)
Variable newRetryRestClient : rest_client -> value -> prog rest_client.

(** [var UsersManager = function(options) { ... }] with the constructors
    of the clients left open: the three tests, then the eleven pairs of
    constructions in source order. *)
Definition construct (options : value) : prog t :=
  if strict_eq options VNull || negb (bool_decide (typeof options = TObject))
  then Throw (ArgumentError "Must provide manager options")
  else
    baseUrl ← read options "baseUrl";
    if strict_eq baseUrl VNull || strict_eq baseUrl VUndefined
    then Throw (ArgumentError "Must provide a base URL for the API")
    else
      invalid ← or_p (negb (bool_decide (typeof baseUrl = TString)))
                     (len ← read baseUrl "length"; mret (strict_eq len (VNum 0)));
      if (invalid : bool)
      then Throw (ArgumentError "The provided base URL is invalid")
      else
        headers ← read options "headers";
        tokenProvider ← read options "tokenProvider";
        retry ← read options "retry";
        let shared := clientOptions headers in
        '(usersAuth0RestClient, shared) ←
          newAuth0RestClient (plus baseUrl "/users/:id") shared tokenProvider;
        users ← newRetryRestClient usersAuth0RestClient retry;
        '(multifactorAuth0RestClient, shared) ←
          newAuth0RestClient (plus baseUrl "/users/:id/multifactor/:provider")
            shared tokenProvider;
        multifactor ← newRetryRestClient multifactorAuth0RestClient retry;
        '(identitiesAuth0RestClient, shared) ←
          newAuth0RestClient (plus baseUrl "/users/:id/identities/:provider/:user_id")
            shared tokenProvider;
        identities ← newRetryRestClient identitiesAuth0RestClient retry;
        '(userLogsAuth0RestClient, shared) ←
          newAuth0RestClient (plus baseUrl "/users/:id/logs") shared tokenProvider;
        userLogs ← newRetryRestClient userLogsAuth0RestClient retry;
        '(enrollmentsAuth0RestClient, shared) ←
          newAuth0RestClient (plus baseUrl "/users/:id/enrollments") shared tokenProvider;
        enrollments ← newRetryRestClient enrollmentsAuth0RestClient retry;
        '(usersByEmailClient, shared) ←
          newAuth0RestClient (plus baseUrl "/users-by-email") shared tokenProvider;
        usersByEmail ← newRetryRestClient usersByEmailClient retry;
        '(recoveryCodeRegenerationAuth0RestClients, shared) ←
          newAuth0RestClient (plus baseUrl "/users/:id/recovery-code-regeneration")
            shared tokenProvider;
        recoveryCodeRegenerations ←
          newRetryRestClient recoveryCodeRegenerationAuth0RestClients retry;
        '(invalidateRememberBrowserAuth0RestClients, shared) ←
          newAuth0RestClient
            (plus baseUrl "/users/:id/multifactor/actions/invalidate-remember-browser")
            shared tokenProvider;
        invalidateRememberBrowsers ←
          newRetryRestClient invalidateRememberBrowserAuth0RestClients retry;
        '(userRolesClient, shared) ←
          newAuth0RestClient (plus baseUrl "/users/:id/roles") shared tokenProvider;
        roles ← newRetryRestClient userRolesClient retry;
        '(userPermissionsClient, shared) ←
          newAuth0RestClient (plus baseUrl "/users/:id/permissions") shared tokenProvider;
        permissions ← newRetryRestClient userPermissionsClient retry;
        '(organizationsClient, shared) ←
          newAuth0RestClient (plus baseUrl "/users/:id/organizations")
            shared tokenProvider;
        organizations ← newRetryRestClient organizationsClient retry;
        mret {|
          users := users;
          multifactor := multifactor;
          identities := identities;
          userLogs := userLogs;
          enrollments := enrollments;
          usersByEmail := usersByEmail;
          recoveryCodeRegenerations := recoveryCodeRegenerations;
          invalidateRememberBrowsers := invalidateRememberBrowsers;
          roles := roles;
          permissions := permissions;
          organizations := organizations
        |}.

End Construct.

(** The clients that the constructor stores in [this], in source order. *)
Definition clients (this : t) : list rest_client :=
  [ users this; multifactor this; identities this; userLogs this;
    enrollments this; usersByEmail this; recoveryCodeRegenerations this;
    invalidateRememberBrowsers this; roles this; permissions this;
    organizations this ].

End UsersManager.

(** ** utils *)

Module utils.

(** [propertyMethod.split('.')] for a path of two components. *)
Fixpoint split_dot (path : string) : string * string :=
  match path with
  | EmptyString => (EmptyString, EmptyString)
  | String c rest =>
      if Ascii.eqb c "." then (EmptyString, rest)
      else let '(p, m) := split_dot rest in (String c p, m)
  end.

(** Modelled from the spec: [utils.wrapPropertyMethod] is not under src/.
    The managers are "straightforward one-to-one mappings" that "apply
    arguments to [the] underlying client": the method installed under
    [name] forwards its arguments to the method [m] of the property [p]
    of the manager, where [propertyMethod] is ['p.m']. *)
Definition wrapPropertyMethod (name propertyMethod : string)
    : string * (string * string) :=
  (name, split_dot propertyMethod).

End utils.

(** ** ConnectionsManager *)

Module ConnectionsManager.

Record t : Type := Build { resource : rest_client }.

(** [var ConnectionsManager = function (options) { ... }].  The
    assignment [apiOptions = { ... }] has no [var]: it writes the global
    variable of that name, and the next statement reads it back. *)
Definition new (options : value) : prog t :=
  if strict_eq options VNull || negb (bool_decide (typeof options = TObject))
  then Throw (ArgumentError "Must provide client options")
  else
    baseUrl ← read options "baseUrl";
    if strict_eq baseUrl VNull || strict_eq baseUrl VUndefined
    then Throw (ArgumentError "Must provide a base URL for the API")
    else
      invalid ← or_p (negb (bool_decide (typeof baseUrl = TString)))
                     (len ← read baseUrl "length"; mret (strict_eq len (VNum 0)));
      if (invalid : bool)
      then Throw (ArgumentError "The provided base URL is invalid")
      else
        headers ← read options "headers";
        SetGlobal "apiOptions"
          (VObject (<["headers" := headers]>
                    (<["query" := VObject (<["repeatParams" := VBool false]> ∅)]> ∅)))
          (GetGlobal "apiOptions" (fun apiOptions =>
             mret {| resource := RestClient (plus baseUrl "/connections/:id ") apiOptions |})).

Section Construct.

(** [new RestClient(resourceUrl, apiOptions)]; the class belongs to
    rest-facade, so the constructor is left open: a program that may
    throw. *)
Variable newRestClient : value -> value -> prog rest_client.

(** [var ConnectionsManager = function (options) { ... }] with the
    constructor of the client left open. *)
Definition construct (options : value) : prog t :=
  if strict_eq options VNull || negb (bool_decide (typeof options = TObject))
  then Throw (ArgumentError "Must provide client options")
  else
    baseUrl ← read options "baseUrl";
    if strict_eq baseUrl VNull || strict_eq baseUrl VUndefined
    then Throw (ArgumentError "Must provide a base URL for the API")
    else
      invalid ← or_p (negb (bool_decide (typeof baseUrl = TString)))
                     (len ← read baseUrl "length"; mret (strict_eq len (VNum 0)));
      if (invalid : bool)
      then Throw (ArgumentError "The provided base URL is invalid")
      else
        headers ← read options "headers";
        SetGlobal "apiOptions"
          (VObject (<["headers" := headers]>
                    (<["query" := VObject (<["repeatParams" := VBool false]> ∅)]> ∅)))
          (GetGlobal "apiOptions" (fun apiOptions =>
             resource ← newRestClient (plus baseUrl "/connections/:id ") apiOptions;
             mret {| resource := resource |})).

End Construct.

(** The five [utils.wrapPropertyMethod(ConnectionsManager, name, path)]
    statements, in source order. *)
Definition prototype : list (string * (string * string)) :=
  [ utils.wrapPropertyMethod "create" "resource.create";
    utils.wrapPropertyMethod "getAll" "resource.getAll";
    utils.wrapPropertyMethod "get" "resource.get";
    utils.wrapPropertyMethod "update" "resource.patch";
    utils.wrapPropertyMethod "delete" "resource.delete" ].

(** [this[property]] *)
Definition property (this : t) (p : string) : option rest_client :=
  if String.eqb p "resource" then Some (resource this) else None.

Fixpoint lookup_method (name : string) (table : list (string * (string * string)))
    : option (string * string) :=
  match table with
  | [] => None
  | (n, pm) :: rest => if String.eqb n name then Some pm else lookup_method name rest
  end.

(** [manager[name](arguments...)] *)
Definition method (name : string) (this : t) (arguments : list value) : prog value :=
  match lookup_method name prototype with
  | Some (p, m) =>
      match property this p with
      | Some c => invoke c m arguments
      | None => Throw (TypeError ("Cannot read properties of undefined (reading '" ++ m ++ "')"))
      end
  | None => Throw (TypeError (name ++ " is not a function"))
  end.

Definition create : t -> list value -> prog value := method "create".
Definition getAll : t -> list value -> prog value := method "getAll".
Definition get : t -> list value -> prog value := method "get".
Definition update : t -> list value -> prog value := method "update".
Definition delete : t -> list value -> prog value := method "delete".

End ConnectionsManager.

(** ** The legacy Users class *)

Module Users.

(** [this.resource]; the field [metadataUpdater], whose class is not
    under src/, is left out of the record, and with it the two metadata
    methods; the constructor below returns it beside the record. *)
Record t : Type := Build { resource : rest_client }.

(** [return this.resource.create(data, cb);] *)
Definition create (this : t) (arguments : list value) : prog value :=
  invoke (resource this) "create" [arg 0 arguments; arg 1 arguments].

(** [return this.resource.getAll.apply(this.resource, arguments);] *)
Definition getAll (this : t) (arguments : list value) : prog value :=
  invoke (resource this) "getAll" arguments.

(** [return this.resource.get.apply(this.resource, arguments);] *)
Definition get (this : t) (arguments : list value) : prog value :=
  invoke (resource this) "get" arguments.

(** [return this.resource.update.apply(this.resource, arguments);] *)
Definition update (this : t) (arguments : list value) : prog value :=
  invoke (resource this) "update" arguments.

(** [return this.resource.delete.apply(this.resource, arguments);] *)
Definition delete (this : t) (arguments : list value) : prog value :=
  invoke (resource this) "delete" arguments.

Section Constructor.
(** What [new MetadataUpdater(options)] builds. *)
Context {U : Type}.

(** The conversion to a string that [+] applies to its operand; on an
    object it runs the object's own code, so it is left open: a program
    that returns the text or throws. *)
Variable ToString : value -> prog string.

(** [new RestClient(resourceUrl, clientOptions)]; the class belongs to
    rest-facade, so the constructor is left open. *)
Variable newRestClient : value -> value -> prog rest_client.

(** [new MetadataUpdater(options)]; the class is not under src/, so the
    constructor is left open: any program that returns an updater or
    throws. *)
Variable MetadataUpdater : value -> prog U.

(** [var Users = function (options){ ... }]: the client options with the
    bearer header, the resource, then the metadata updater.  Nothing is
    checked. *)
Definition new (options : value) : prog (t * U) :=
  accessToken ← read options "accessToken";
  token ← ToString accessToken;
  let clientOptions :=
    VObject (<["headers" :=
                 VObject (<["Authorization" := VStr ("Bearer " ++ token)]> ∅)]> ∅) in
  baseUrl ← read options "baseUrl";
  base ← ToString baseUrl;
  resource ← newRestClient (VStr (base ++ "/users/:userId")) clientOptions;
  metadataUpdater ← MetadataUpdater options;
  mret (Build resource, metadataUpdater).

End Constructor.

End Users.

(** ** The retry wrapper *)

Module Retry.

Section Wrapper.
(** The results and the errors of the wrapped operation. *)
Context {R E : Type}.

(** Modelled from the spec: the retry policy, "configured once per
    client instance; read-only during operation":
    [{maxRetries, retryCondition, backoffBase, backoffFactor}]. *)
Record policy : Type := Policy {
  maxRetries : nat;
  retryCondition : E -> bool;
  backoffBase : nat;
  backoffFactor : nat
}.

(** Modelled from the spec: the states of one call through the wrapper,
    [Attempting], [Success], [ExhaustedFailure] and [FatalFailure], the
    first carrying the attempt count. *)
Inductive state : Type :=
| Attempting (attempts : nat)
| Success (r : R)
| ExhaustedFailure (e : E)
| FatalFailure (e : E).

(** Modelled from the spec: what happens during a call, in order, an
    attempt on the transport or a wait "according to backoff schedule". *)
Inductive event : Type :=
| Attempt (n : nat)
| Wait (delay : nat).

Variable p : policy.

(** The transport as the call sees it: the outcome of the attempt made
    when [n] attempts have already failed. *)
Variable transport : nat -> E + R.

(** Modelled from the spec: the "attempt-indexed delay" of the backoff
    schedule, without jitter. *)
Definition delay (n : nat) : nat := (backoffBase p * backoffFactor p ^ n)%nat.

(** Modelled from the spec: the transitions of section 4.3.
    [Attempting] issues the underlying operation; a result is
    [Success]; a retryable error with attempts-so-far below the maximum
    waits and re-enters [Attempting] with the count incremented; a
    retryable error at the maximum is [ExhaustedFailure]; any other
    error is [FatalFailure].  The terminal states do not move. *)
Definition step (s : state) : state * list event :=
  match s with
  | Attempting n =>
      match transport n with
      | inr r => (Success r, [Attempt n])
      | inl e =>
          if retryCondition p e
          then if (n <? maxRetries p)%nat
               then (Attempting (S n), [Attempt n; Wait (delay n)])
               else (ExhaustedFailure e, [Attempt n])
          else (FatalFailure e, [Attempt n])
      end
  | _ => (s, [])
  end.

(** [fuel] transitions in a row, with the events they produce. *)
Fixpoint steps (fuel : nat) (s : state) : state * list event :=
  match fuel with
  | O => (s, [])
  | S fuel' =>
      let '(s1, ev1) := step s in
      let '(s2, ev2) := steps fuel' s1 in
      (s2, (ev1 ++ ev2)%list)
  end.

(** The states marked terminal in the spec. *)
Definition terminal (s : state) : bool :=
  match s with Attempting _ => false | _ => true end.

(** Modelled from the spec: the errors the caller can receive, the
    underlying error itself or [ExhaustedRetryError], which "wraps the
    last underlying error". *)
Inductive failure : Type :=
| Underlying (e : E)
| ExhaustedRetryError (last : E).

(** Modelled from the spec: what the caller receives in each terminal
    state, the result "unchanged", the exhaustion error, or the fatal error
    "surfaced immediately"; [None] while the call is still attempting. *)
Definition settled (s : state) : option (failure + R) :=
  match s with
  | Attempting _ => None
  | Success r => Some (inr r)
  | ExhaustedFailure e => Some (inl (ExhaustedRetryError e))
  | FatalFailure e => Some (inl (Underlying e))
  end.

(** Modelled from the spec: one externally issued call, "initial state:
    [Attempting], attempt count = 0", run for the [maxRetries + 1]
    transitions that the budget allows. *)
Definition call : state * list event :=
  steps (S (maxRetries p)) (Attempting 0).

(** The attempts of a log, in the order they were made. *)
Definition attempts (log : list event) : list nat :=
  omap (fun ev => match ev with Attempt n => Some n | Wait _ => None end) log.

End Wrapper.

Arguments policy : clear implicits.
Arguments state : clear implicits.
Arguments failure : clear implicits.

End Retry.

(** ** The URL template resolver *)

Module UrlTemplate.

(** [template.split('/')] *)
Fixpoint split_slash (s : string) : list string :=
  match s with
  | EmptyString => [EmptyString]
  | String c rest =>
      if Ascii.eqb c "/" then EmptyString :: split_slash rest
      else match split_slash rest with
           | seg :: segs => String c seg :: segs
           | [] => [String c EmptyString]
           end
  end.

(** [segments.join('/')] *)
Fixpoint join_slash (segs : list string) : string :=
  match segs with
  | [] => EmptyString
  | [seg] => seg
  | seg :: rest => seg ++ "/" ++ join_slash rest
  end.

Section Resolve.
(** The URL-escaped text of a substituted value. *)
Variable escape : value -> string.

(** Where the name of a placeholder ends: the text that follows the colon,
    divided into the name and what comes after it.  The spec writes
    placeholders [:name] and does not say where a name ends, so the
    division is left open. *)
Variable name_of : string -> string * string.

(** Modelled from the spec: the resolver is part of the REST client,
    which is not under src/.  A path segment that starts with [:] holds
    the placeholder [:name]; when the parameters have a value for
    [name] the placeholder is replaced by it, URL-escaped, and
    otherwise "an absent optional placeholder resolves to removal of
    that path segment".  Other segments are kept as they are. *)
Definition resolve_segment (params : gmap string value) (seg : string)
    : option string :=
  match seg with
  | String ":" rest =>
      let '(name, suffix) := name_of rest in
      match params !! name with
      | Some v => Some (escape v ++ suffix)
      | None => None
      end
  | _ => Some seg
  end.

(** The name a segment consumes from the parameters, if any. *)
Definition consumed (params : gmap string value) (seg : string)
    : option string :=
  match seg with
  | String ":" rest =>
      let name := fst (name_of rest) in
      if decide (is_Some (params !! name)) then Some name else None
  | _ => None
  end.

(** Modelled from the spec: "produce the concrete path by substituting
    each placeholder ... and return a residual parameters mapping with
    consumed keys removed"; placeholders "resolve left-to-right,
    independently". *)
Definition resolve (template : string) (params : gmap string value)
    : string * gmap string value :=
  let segs := split_slash template in
  (join_slash (omap (resolve_segment params) segs),
   foldr base.delete params (omap (consumed params) segs)).

End Resolve.

(** One way to end a name: at the end of the segment. *)
Definition whole_segment (rest : string) : string * string := (rest, EmptyString).

(** The last character of a string. *)
Fixpoint last_char (s : string) : option ascii :=
  match s with
  | EmptyString => None
  | String c EmptyString => Some c
  | String _ rest => last_char rest
  end.

End UrlTemplate.

(** * Vocabulary of the statements *)

(** The arguments that reach the client after the test
    [cb && cb instanceof Function]: the callback when it is a function,
    nothing otherwise. *)
Definition callback_args (cb : value) : list value :=
  if instanceof_Function cb then [cb] else [].

(** [v.k] when the read cannot throw. *)
Definition field (v : value) (k : string) : value :=
  match JS.get v k with
  | inr x => x
  | inl _ => VUndefined
  end.

(** A string other than the empty one. *)
Definition nonempty_string (v : value) : Prop :=
  exists s, v = VStr s /\ s <> "".

Section Outcomes.
Context {remote : Type}.
Variable perform : call -> remote -> value * remote.

(** The method ends by returning what the single client call [c]
    returned, and the call log grows by exactly [c]. *)
Definition issues_one (p : prog value) (w : world remote) (c : call) : Prop :=
  run perform p w =
    (Returned (fst (perform c (server w))),
     World (globals w) (snd (perform c (server w))) (calls w ++ [c])).

(** The program throws [e] and leaves the world, hence the call log, as
    it was: no client call was made. *)
Definition throws {A : Type} (p : prog A) (w : world remote) (e : exn) : Prop :=
  run perform p w = (Thrown e, w).

(** The program throws some [ArgumentError] without any client call. *)
Definition raises_ArgumentError {A : Type} (p : prog A) (w : world remote) : Prop :=
  exists message, throws p w (ArgumentError message).

(** The program returns normally. *)
Definition returns {A : Type} (p : prog A) (w : world remote) : Prop :=
  exists a, fst (run perform p w) = Returned a.

End Outcomes.

(** The options that the claim says are refused: [options] is [null] or not
    an object, [options.baseUrl] is [null] or [undefined], or it is not a
    string or is the empty string. *)
Definition refused_options (options : value) : Prop :=
  options = VNull \/ typeof options <> TObject
  \/ field options "baseUrl" = VNull \/ field options "baseUrl" = VUndefined
  \/ typeof (field options "baseUrl") <> TString
  \/ field options "baseUrl" = VStr "".

(** An options object with a non-empty string [baseUrl]. *)
Definition accepted_options (options : value) : Prop :=
  exists props, options = VObject props /\ nonempty_string (field options "baseUrl").

(** An object in the sense of the language: not a primitive, so neither
    [null] nor [undefined]. *)
Definition is_object (v : value) : Prop :=
  match v with
  | VObject _ | VFunction _ => True
  | _ => False
  end.

(** What [typeof v === 'object'] is meant to select: an object proper. *)
Definition proper_object (v : value) : Prop := exists props, v = VObject props.

(** A string, possibly empty. *)
Definition is_string (v : value) : Prop := exists s, v = VStr s.


(** The method makes the single client call [c], and that call is one
    HTTP request with method [vb]. *)
Definition carried_out_as {remote : Type} (perform : call -> remote -> value * remote)
    (p : prog value) (w : world remote) (c : call) (vb : verb) : Prop :=
  issues_one perform p w c /\ http_requests [c] = [vb].

(** The URL template of a client, as the string the resolver works on. *)
Definition template_of (c : rest_client) : string := to_string (resource_url c).

(** [undefined] or [null], the two values without properties. *)
Definition nullish (v : value) : Prop := v = VUndefined \/ v = VNull.

(** How the world stands after the single client call [c], answered by
    [answer]. *)
Definition after_call {remote X : Type}
    (answer : call -> remote -> (X + value) * remote)
    (c : call) (w : world remote) : world remote :=
  World (globals w) (snd (answer c (server w))) (calls w ++ [c]).

(** How a method ends that ends as its single client call [c] does: it
    returns the value the client returned, or passes on what the client
    threw. *)
Definition as_call_ends {remote X : Type}
    (answer : call -> remote -> (X + value) * remote)
    (c : call) (w : world remote) : ending X value :=
  match fst (answer c (server w)) with
  | inr v => Done v
  | inl x => Failed x
  end.

(** All or nothing: the method either throws an exception of its own and
    leaves the world exactly as it was, or makes a single client call, on
    one of the clients [cs], and ends as that call ends, the world changed
    by that call alone. *)
Definition atomic {remote X : Type}
    (answer : call -> remote -> (X + value) * remote)
    (cs : list rest_client) (p : prog value) (w : world remote) : Prop :=
  (exists e, run_raising answer p w = (Raised e, w))
  \/ (exists c, In (on c) cs
                /\ run_raising answer p w
                   = (as_call_ends answer c w, after_call answer c w)).

(** The only exceptions of its own that the method throws are
    [ArgumentError]s. *)
Definition only_ArgumentError {remote X : Type}
    (answer : call -> remote -> (X + value) * remote)
    (p : prog value) (w : world remote) : Prop :=
  forall e, fst (run_raising answer p w) = Raised e ->
            exists message, e = ArgumentError message.

(** The method throws no exception of its own. *)
Definition raises_nothing {remote X : Type}
    (answer : call -> remote -> (X + value) * remote)
    (p : prog value) (w : world remote) : Prop :=
  forall e, fst (run_raising answer p w) <> Raised e.

(** How a writer of roles or permissions [f], bound to the client [c] and
    the client method [m], treats its arguments: the four cases of
    [params] and [params.id]. *)
Definition writer_behaviour {remote : Type}
    (perform : call -> remote -> value * remote)
    (f : list value -> prog value) (c : rest_client) (m : string) : Prop :=
  forall (arguments : list value) (w : world remote),
    let params := arg 0 arguments in
    (nullish params -> exists message, throws perform (f arguments) w (TypeError message))
    /\ (~ nullish params -> truthy (field params "id") = false ->
         throws perform (f arguments) w
           (ArgumentError "The user_id cannot be null or undefined"))
    /\ (truthy (field params "id") = true -> ~ is_string (field params "id") ->
         throws perform (f arguments) w
           (ArgumentError "The user_id has to be a string"))
    /\ (nonempty_string (field params "id") ->
         issues_one perform (f arguments) w
           (Call c m ([params; or_else (arg 1 arguments) empty_object]
                      ++ callback_args (arg 2 arguments)))).

(** A field that is missing or holds a string. *)
Definition absent_or_string (v : value) : Prop := v = VUndefined \/ is_string v.

(** The text that such a field contributes to a concatenation: the string
    itself, or ['undefined']. *)
Definition text_of (v : value) : string :=
  match v with
  | VStr s => s
  | _ => "undefined"
  end.

(** The paths that the constructor of [UsersManager] appends to the base
    URL, in source order. *)
Definition users_paths : list string :=
  [ "/users/:id"; "/users/:id/multifactor/:provider";
    "/users/:id/identities/:provider/:user_id"; "/users/:id/logs";
    "/users/:id/enrollments"; "/users-by-email";
    "/users/:id/recovery-code-regeneration";
    "/users/:id/multifactor/actions/invalidate-remember-browser";
    "/users/:id/roles"; "/users/:id/permissions"; "/users/:id/organizations" ].

(** The clients [cs] were built for the paths [paths], one after the
    other, between the worlds [w] and [w']: for each path the constructor
    of the Auth0 client returned, on the template [b ++ path], the token
    provider and the client options as the constructions before it left
    them, and the constructor of the retry client returned the client
    stored, on that Auth0 client and the retry policy. *)
Fixpoint wired {remote : Type} (perform : call -> remote -> value * remote)
    (newAuth0RestClient : value -> value -> value -> prog (rest_client * value))
    (newRetryRestClient : rest_client -> value -> prog rest_client)
    (b : string) (tokenProvider retry : value)
    (paths : list string) (cs : list rest_client) (shared : value)
    (w w' : world remote) : Prop :=
  match paths, cs with
  | [], [] => w' = w
  | path :: paths, c :: cs =>
      exists inner shared' w1 w2,
        run perform (newAuth0RestClient (VStr (b ++ path)) shared tokenProvider) w
        = (Returned (inner, shared'), w1)
        /\ run perform (newRetryRestClient inner retry) w1 = (Returned c, w2)
        /\ wired perform newAuth0RestClient newRetryRestClient b tokenProvider retry
             paths cs shared' w2 w'
  | _, _ => False
  end.


(** ** Fixtures for the examples *)

(** A client that answers [undefined] and a remote API without state. *)
Definition idle (c : call) (s : unit) : value * unit := (VUndefined, s).

(** The world before anything has run. *)
Definition fresh : world unit := World ∅ tt [].

(** [{ baseUrl: 'https://tenant.auth0.com/api/v2' }] *)
Definition tenant : value :=
  VObject {["baseUrl" := VStr "https://tenant.auth0.com/api/v2"]}.

(** [new UsersManager(tenant)] *)
Definition tenant_users : UsersManager.t :=
  match fst (run idle (UsersManager.new tenant) fresh) with
  | Returned this => this
  | Thrown _ =>
      let none := RestClient VUndefined VUndefined in
      UsersManager.Build none none none none none none none none none none none
  end.

(** A callback. *)
Definition callback : value := VFunction ∅.

(** [new ConnectionsManager(tenant)] and a legacy [Users] on the same API. *)
Definition tenant_connections : ConnectionsManager.t :=
  match fst (run idle (ConnectionsManager.new tenant) fresh) with
  | Returned this => this
  | Thrown _ => ConnectionsManager.Build (RestClient VUndefined VUndefined)
  end.

Definition tenant_legacy_users : Users.t :=
  Users.Build
    (RestClient (VStr "https://tenant.auth0.com/api/v2/users/:userId") (VObject ∅)).

(** Two option objects that differ in their headers. *)
Definition options_one : value :=
  VObject (<["baseUrl" := VStr "https://tenant.auth0.com/api/v2"]>
           {["headers" := VObject {["x-app" := VStr "one"]}]}).

Definition options_two : value :=
  VObject (<["baseUrl" := VStr "https://tenant.auth0.com/api/v2"]>
           {["headers" := VObject {["x-app" := VStr "two"]}]}).

(** The [apiOptions] object built from given headers. *)
Definition apiOptions_of (headers : value) : value :=
  VObject (<["headers" := headers]>
           (<["query" := VObject (<["repeatParams" := VBool false]> ∅)]> ∅)).

(** A transport that answers every attempt with status 503, and a policy
    that retries twice on 429 and on the 5xx statuses. *)
Definition overloaded (attempt : nat) : nat + string := inl 503.

Definition retry_transient : Retry.policy nat :=
  Retry.Policy 2 (fun status => (status =? 429)%nat || (500 <=? status)%nat) 100 2.

(** [{ id: 'auth0|1' }], and a metadata updater that builds nothing. *)
Definition some_user : value := VObject {["id" := VStr "auth0|1"]}.

Definition no_updater (options : value) : prog unit := Ret tt.

(** The conversion to a string of a value that has no [toString] of its
    own to run. *)
Definition primitive_ToString (v : value) : prog string := Ret (to_string v).

(** Client constructors that build the client from their arguments and do
    nothing else. *)
Definition plain_Auth0RestClient (resourceUrl options tokenProvider : value)
    : prog (rest_client * value) :=
  Ret (Auth0RestClient resourceUrl options tokenProvider, options).

Definition plain_RetryRestClient (restClient : rest_client) (retry : value)
    : prog rest_client :=
  Ret (RetryRestClient restClient retry).

Definition plain_RestClient (resourceUrl options : value) : prog rest_client :=
  Ret (RestClient resourceUrl options).



(** A client that refuses every call with the status 503. *)
Definition unavailable (c : call) (s : unit) : (nat + value) * unit := (inl 503, s).

(** * Proofs *)

Section Stepping.
Context {remote : Type}.
Variable perform : call -> remote -> value * remote.

Lemma run_bind {A B : Type} (p : prog A) (f : A -> prog B) (w : world remote) :
  run perform (p ≫= f) w =
    match run perform p w with
    | (Returned a, w') => run perform (f a) w'
    | (Thrown e, w') => (Thrown e, w')
    end.
Proof.
  revert w. induction p as [a | e | c k IH | x v k IH | x k IH]; intros w; simpl.
  - reflexivity.
  - reflexivity.
  - destruct (perform c (server w)) as [v s]. apply IH.
  - apply IH.
  - destruct (globals w !! x) as [v |]; [apply IH | reflexivity].
Qed.

Lemma issues_one_invoke (c : rest_client) (m : string) (args : list value)
    (w : world remote) :
  issues_one perform (invoke c m args) w (Call c m args).
Proof.
  unfold issues_one, invoke. simpl.
  destruct (perform (Call c m args) (server w)) as [v s]. reflexivity.
Qed.

Lemma truthy_function (cb : value) :
  truthy cb && instanceof_Function cb = instanceof_Function cb.
Proof. destruct cb; simpl; rewrite ?andb_false_r; reflexivity. Qed.

Lemma issues_one_invoke_cb (c : rest_client) (m : string) (args : list value)
    (cb : value) (w : world remote) :
  issues_one perform (invoke_cb c m args cb) w (Call c m (args ++ callback_args cb)).
Proof.
  unfold invoke_cb, callback_args. rewrite truthy_function.
  destruct (instanceof_Function cb).
  - apply issues_one_invoke.
  - rewrite app_nil_r. apply issues_one_invoke.
Qed.

End Stepping.

(** ** Metadata envelopes *)

Section Metadata.
Context {remote : Type}.
Variable perform : call -> remote -> value * remote.

(** C4: for every [params] and [metadata], [updateUserMetadata] issues
    exactly one [patch] on the users client whose first argument is
    [params] as given and whose body is the object
    [{user_metadata: metadata}]; [updateAppMetadata] does the same with
    [{app_metadata: metadata}]; reading the envelope key of the body
    gives back [metadata] itself. *)
Theorem C4_metadata_envelope (this : UsersManager.t) (arguments : list value)
    (w : world remote) :
  let params := arg 0 arguments in
  let metadata := arg 1 arguments in
  let cb := arg 2 arguments in
  issues_one perform (UsersManager.updateUserMetadata this arguments) w
    (Call (UsersManager.users this) "patch"
       ([params; VObject {["user_metadata" := metadata]}] ++ callback_args cb))
  /\ issues_one perform (UsersManager.updateAppMetadata this arguments) w
    (Call (UsersManager.users this) "patch"
       ([params; VObject {["app_metadata" := metadata]}] ++ callback_args cb))
  /\ JS.get (VObject {["user_metadata" := metadata]}) "user_metadata" = inr metadata
  /\ JS.get (VObject {["app_metadata" := metadata]}) "app_metadata" = inr metadata.
Proof.
  intros params metadata cb.
  split; [| split; [| split; simpl; by rewrite lookup_singleton_eq]].
  - unfold UsersManager.updateUserMetadata. rewrite insert_empty.
    apply issues_one_invoke_cb.
  - unfold UsersManager.updateAppMetadata. rewrite insert_empty.
    apply issues_one_invoke_cb.
Qed.

End Metadata.

(** ** Construction *)

Lemma length_zero_empty (s : string) :
  (Z.of_nat (String.length s) =? 0)%Z = String.eqb s "".
Proof. destruct s; reflexivity. Qed.

Lemma eqb_empty_false (s : string) : s <> "" -> String.eqb s "" = false.
Proof. intros H. apply String.eqb_neq. exact H. Qed.

(** Every value is refused or accepted: the two cases of the claim leave
    nothing out. *)
Lemma options_cases (options : value) :
  refused_options options \/ accepted_options options.
Proof.
  unfold refused_options, accepted_options, nonempty_string, field.
  destruct options as [| | b | n | | s | props | props];
    try (left; right; left; discriminate); [left; left; reflexivity |].
  simpl. destruct (props !! "baseUrl") as [[| | b | n | | s | ps | ps] |]; simpl;
    try (left; do 4 right; left; discriminate);
    try (left; do 2 right; left; reflexivity);
    try (left; do 3 right; left; reflexivity).
  destruct s as [| c s].
  - left. do 5 right. reflexivity.
  - right. eexists. split; [reflexivity |]. eexists. split; [reflexivity | discriminate].
Qed.

Section Construction.
Context {remote : Type}.
Variable perform : call -> remote -> value * remote.

Lemma UsersManager_new_refused (options : value) (w : world remote) :
  refused_options options ->
  raises_ArgumentError perform (UsersManager.new options) w.
Proof.
  unfold raises_ArgumentError, throws, UsersManager.new.
  destruct options as [| | b | n | | s | props | props];
    try (intros _; eexists; reflexivity).
  unfold refused_options, field. simpl.
  destruct (props !! "baseUrl") as [[| | b | n | | s | ps | ps] |];
    simpl; try (intros _; eexists; reflexivity).
  rewrite length_zero_empty.
  intros [H | [H | [H | [H | [H | H]]]]]; try congruence.
  injection H as ->. eexists; reflexivity.
Qed.


(** What the constructor of [ConnectionsManager] does with an options
    object whose [baseUrl] is the non-empty string [b]. *)
Lemma ConnectionsManager_new_accepted (props : gmap string value) (b : string)
    (w : world remote) :
  props !! "baseUrl" = Some (VStr b) -> b <> "" ->
  let apiOptions :=
    VObject (<["headers" := default VUndefined (props !! "headers")]>
             (<["query" := VObject (<["repeatParams" := VBool false]> ∅)]> ∅)) in
  run perform (ConnectionsManager.new (VObject props)) w =
    (Returned (ConnectionsManager.Build
                 (RestClient (VStr (b ++ "/connections/:id ")) apiOptions)),
     World (<["apiOptions" := apiOptions]> (globals w)) (server w) (calls w)).
Proof.
  intros Hb Hne. unfold ConnectionsManager.new. simpl. rewrite Hb. simpl.
  rewrite length_zero_empty, (eqb_empty_false b Hne). simpl.
  rewrite lookup_insert_eq. reflexivity.
Qed.

Lemma UsersManager_new_accepted (props : gmap string value) (b : string)
    (w : world remote) :
  props !! "baseUrl" = Some (VStr b) -> b <> "" ->
  exists this, run perform (UsersManager.new (VObject props)) w = (Returned this, w)
    /\ resource_url (UsersManager.users this) = VStr (b ++ "/users/:id").
Proof.
  intros Hb Hne. unfold UsersManager.new. simpl. rewrite Hb. simpl.
  rewrite length_zero_empty, (eqb_empty_false b Hne). simpl.
  eexists. split; reflexivity.
Qed.


Section OpenConstructors.
Variable newAuth0RestClient : value -> value -> value -> prog (rest_client * value).
Variable newRetryRestClient : rest_client -> value -> prog rest_client.
Variable newRestClient : value -> value -> prog rest_client.

(** The tests come first: a refusal does not depend on the constructors of
    the clients. *)
Lemma UsersManager_construct_refused (options : value) (w : world remote) :
  refused_options options ->
  raises_ArgumentError perform
    (UsersManager.construct newAuth0RestClient newRetryRestClient options) w.
Proof.
  unfold raises_ArgumentError, throws, UsersManager.construct.
  destruct options as [| | b | n | | s | props | props];
    try (intros _; eexists; reflexivity).
  unfold refused_options, field. simpl.
  destruct (props !! "baseUrl") as [[| | b | n | | s | ps | ps] |];
    simpl; try (intros _; eexists; reflexivity).
  rewrite length_zero_empty.
  intros [H | [H | [H | [H | [H | H]]]]]; try congruence.
  injection H as ->. eexists; reflexivity.
Qed.





End OpenConstructors.

(** With constructors that only record their arguments, the construction
    is the one the examples use. *)
Lemma UsersManager_construct_plain (options : value) (w : world remote) :
  run perform
    (UsersManager.construct plain_Auth0RestClient plain_RetryRestClient options) w
  = run perform (UsersManager.new options) w.
Proof.
  unfold UsersManager.construct, UsersManager.new.
  destruct options as [| | b | n | | s | props | props]; reflexivity.
Qed.

Lemma ConnectionsManager_construct_plain (options : value) (w : world remote) :
  run perform (ConnectionsManager.construct plain_RestClient options) w
  = run perform (ConnectionsManager.new options) w.
Proof.
  unfold ConnectionsManager.construct, ConnectionsManager.new.
  destruct options as [| | b | n | | s | props | props]; reflexivity.
Qed.

End Construction.

(** ** Validation of the identifying parameters *)

Lemma read_field (v : value) (k : string) :
  v <> VUndefined -> v <> VNull -> read v k = Ret (field v k).
Proof.
  intros H1 H2. unfold read, field.
  destruct v; simpl; try congruence; try reflexivity.
  destruct (String.eqb k "length"); reflexivity.
Qed.

Lemma nullish_cases (v : value) :
  v = VUndefined \/ v = VNull \/ (v <> VUndefined /\ v <> VNull).
Proof. destruct v; auto; right; right; split; discriminate. Qed.

Lemma or_else_object (v : value) :
  or_else v empty_object <> VUndefined /\ or_else v empty_object <> VNull.
Proof.
  unfold or_else. destruct v as [| | b | n | | s | props | props]; simpl; try done.
  - destruct b; done.
  - destruct (negb (n =? 0)%Z); done.
  - destruct (negb (String.eqb s "")); done.
Qed.

Lemma truthy_not_nullish (v : value) :
  truthy v = true -> v <> VUndefined /\ v <> VNull.
Proof. destruct v; simpl; intros H; split; congruence. Qed.

(** Only a truthy value has a truthy property. *)
Lemma truthy_field (v : value) (k : string) :
  truthy (field v k) = true -> truthy v = true.
Proof.
  unfold field. destruct v as [| | b | n | | s | props | props]; simpl; try done.
  destruct (String.eqb k "length"); simpl; [destruct s; done | done].
Qed.

Lemma typeof_string (v : value) : typeof v = TString <-> is_string v.
Proof.
  split.
  - destruct v; simpl; try discriminate. intros _. by eexists.
  - intros [s ->]. reflexivity.
Qed.

(** The test [!x || typeof x !== 'string'] fails exactly on the non-empty
    strings. *)
Lemma missing_or_not_string_false (x : value) :
  negb (truthy x) || negb (bool_decide (typeof x = TString)) = false
  <-> nonempty_string x.
Proof.
  split.
  - destruct x; simpl; try discriminate.
    + destruct b; discriminate.
    + rewrite orb_true_r. discriminate.
    + rewrite orb_false_r, negb_involutive. intros H.
      exists s. split; [reflexivity |]. by apply String.eqb_neq.
  - intros (s & -> & Hne). simpl. by rewrite (eqb_empty_false s Hne).
Qed.

Lemma missing_or_not_string_true (x : value) :
  ~ nonempty_string x ->
  negb (truthy x) || negb (bool_decide (typeof x = TString)) = true.
Proof.
  intros H. apply not_false_iff_true. intros Hf. apply H.
  by apply missing_or_not_string_false.
Qed.

Section Validation.
Context {remote : Type}.
Variable perform : call -> remote -> value * remote.

Lemma missing_or_not_string_eval (params : value) (k : string) :
  params <> VUndefined -> params <> VNull ->
  UsersManager.missing_or_not_string params k =
    Ret (negb (truthy (field params k))
         || negb (bool_decide (typeof (field params k) = TString))).
Proof.
  intros H1 H2. unfold UsersManager.missing_or_not_string.
  rewrite (read_field params k H1 H2). reflexivity.
Qed.

(** [unlink] as a cascade of its three tests. *)
Lemma unlink_eval (this : UsersManager.t) (arguments : list value) :
  let params := or_else (arg 0 arguments) empty_object in
  let test k := negb (truthy (field params k))
                || negb (bool_decide (typeof (field params k) = TString)) in
  UsersManager.unlink this arguments =
    if test "id" then Throw (ArgumentError "id field is required")
    else if test "user_id" then Throw (ArgumentError "user_id field is required")
    else if test "provider" then Throw (ArgumentError "provider field is required")
    else invoke_cb (UsersManager.identities this) "delete" [params] (arg 1 arguments).
Proof.
  intros params test. unfold UsersManager.unlink. fold params.
  destruct (or_else_object (arg 0 arguments)) as [H1 H2]. fold params in H1, H2.
  rewrite !(missing_or_not_string_eval params _ H1 H2). fold test.
  reflexivity.
Qed.

(** [deleteMultifactorProvider] as a cascade of its two tests. *)
Lemma deleteMultifactorProvider_eval (this : UsersManager.t) (arguments : list value) :
  let params := or_else (arg 0 arguments) empty_object in
  let test k := negb (truthy (field params k))
                || negb (bool_decide (typeof (field params k) = TString)) in
  UsersManager.deleteMultifactorProvider this arguments =
    if test "id" then Throw (ArgumentError "The id parameter must be a valid user id")
    else if test "provider" then Throw (ArgumentError "Must specify a provider")
    else invoke_cb (UsersManager.multifactor this) "delete" [params] (arg 1 arguments).
Proof.
  intros params test. unfold UsersManager.deleteMultifactorProvider. fold params.
  destruct (or_else_object (arg 0 arguments)) as [H1 H2]. fold params in H1, H2.
  rewrite !(missing_or_not_string_eval params _ H1 H2). fold test.
  reflexivity.
Qed.

(** [delete] on a value whose [typeof] is not ['object']. *)
Lemma delete_not_object (this : UsersManager.t) (arguments : list value)
    (w : world remote) :
  typeof (arg 0 arguments) <> TObject ->
  raises_ArgumentError perform (UsersManager.delete this arguments) w.
Proof.
  intros H. unfold UsersManager.delete.
  rewrite (bool_decide_eq_false_2 _ H). eexists. reflexivity.
Qed.

(** [delete] on an object: the [id] decides. *)
Lemma delete_object (this : UsersManager.t) (arguments : list value)
    (props : gmap string value) :
  arg 0 arguments = VObject props ->
  UsersManager.delete this arguments =
    if bool_decide (typeof (field (VObject props) "id") = TString)
    then invoke (UsersManager.users this) "delete" arguments
    else Throw (ArgumentError "You must provide an id for the delete method").
Proof.
  intros H. unfold UsersManager.delete. rewrite H. unfold field. simpl.
  destruct (bool_decide _); reflexivity.
Qed.

(** [delete(null)]: [typeof null] is ['object'], so the read of [null.id]
    is reached. *)
Lemma delete_null (this : UsersManager.t) (rest : list value) (w : world remote) :
  throws perform (UsersManager.delete this (VNull :: rest)) w
    (TypeError "Cannot read properties of null (reading 'id')").
Proof. reflexivity. Qed.

Lemma delete_returns_string_id (this : UsersManager.t) (arguments : list value)
    (w : world remote) :
  returns perform (UsersManager.delete this arguments) w ->
  is_string (field (arg 0 arguments) "id").
Proof.
  intros [v Hv].
  destruct (decide (typeof (arg 0 arguments) = TObject)) as [Hobj | Hobj].
  - destruct (arg 0 arguments) as [| | b | n | | s | props | props] eqn:E;
      try discriminate Hobj.
    + pose proof (delete_null this (tl arguments) w) as Hn.
      unfold throws in Hn.
      assert (arguments = VNull :: tl arguments) as Hargs.
      { destruct arguments as [| a l]; [discriminate E |].
        unfold arg in E. simpl in E. subst a. reflexivity. }
      rewrite <- Hargs in Hn. rewrite Hn in Hv. discriminate.
    + rewrite (delete_object this arguments props E) in Hv.
      destruct (bool_decide _) eqn:Hd.
      * apply bool_decide_eq_true_1 in Hd. by apply typeof_string.
      * discriminate.
  - destruct (delete_not_object this arguments w Hobj) as [m Hm].
    unfold throws in Hm. rewrite Hm in Hv. discriminate.
Qed.

Lemma unlink_returns_string_id (this : UsersManager.t) (arguments : list value)
    (w : world remote) :
  returns perform (UsersManager.unlink this arguments) w ->
  nonempty_string (field (or_else (arg 0 arguments) empty_object) "id").
Proof.
  intros [v Hv]. rewrite unlink_eval in Hv.
  destruct (negb _ || _) eqn:Hid; [discriminate |].
  by apply missing_or_not_string_false.
Qed.

Lemma deleteMultifactorProvider_returns_string_id (this : UsersManager.t)
    (arguments : list value) (w : world remote) :
  returns perform (UsersManager.deleteMultifactorProvider this arguments) w ->
  nonempty_string (field (or_else (arg 0 arguments) empty_object) "id").
Proof.
  intros [v Hv]. rewrite deleteMultifactorProvider_eval in Hv.
  destruct (negb _ || _) eqn:Hid; [discriminate |].
  by apply missing_or_not_string_false.
Qed.

(** C2, as amended: [delete] raises an [ArgumentError], with no client
    call, when [typeof params] is not ['object'] and when [params] is an
    object proper whose [id] is not a string; [unlink] does when any of [id],
    [user_id], [provider] of [params || {}] is missing, empty or not a
    string.  When [params] is an object with a string [id], [delete]
    forwards its arguments in one [delete] call on the users client; when
    the three fields are non-empty strings, [unlink] makes one [delete]
    call on the identities client. *)
Theorem C2_validation_before_delegation (this : UsersManager.t)
    (arguments : list value) (w : world remote) :
  let params := arg 0 arguments in
  let params' := or_else params empty_object in
  (typeof params <> TObject ->
     raises_ArgumentError perform (UsersManager.delete this arguments) w)
  /\ (proper_object params -> ~ is_string (field params "id") ->
       raises_ArgumentError perform (UsersManager.delete this arguments) w)
  /\ (~ nonempty_string (field params' "id")
       \/ ~ nonempty_string (field params' "user_id")
       \/ ~ nonempty_string (field params' "provider") ->
       raises_ArgumentError perform (UsersManager.unlink this arguments) w)
  /\ (proper_object params -> is_string (field params "id") ->
       issues_one perform (UsersManager.delete this arguments) w
         (Call (UsersManager.users this) "delete" arguments))
  /\ (nonempty_string (field params' "id") ->
       nonempty_string (field params' "user_id") ->
       nonempty_string (field params' "provider") ->
       issues_one perform (UsersManager.unlink this arguments) w
         (Call (UsersManager.identities this) "delete"
            ([params'] ++ callback_args (arg 1 arguments)))).
Proof.
  intros params params'. repeat apply conj.
  - apply delete_not_object.
  - intros [props E] Hid. subst params. rewrite E in Hid.
    rewrite (delete_object this arguments props E).
    rewrite bool_decide_eq_false_2; [by eexists |].
    intros Ht. by apply Hid, typeof_string.
  - intros H. rewrite unlink_eval. fold params params'.
    destruct (negb (truthy (field params' "id")) || _) eqn:T1; [by eexists |].
    destruct (negb (truthy (field params' "user_id")) || _) eqn:T2; [by eexists |].
    destruct (negb (truthy (field params' "provider")) || _) eqn:T3; [by eexists |].
    apply missing_or_not_string_false in T1, T2, T3. tauto.
  - intros [props E] Hid. subst params. rewrite E in Hid.
    rewrite (delete_object this arguments props E).
    rewrite bool_decide_eq_true_2; [| by apply typeof_string].
    apply issues_one_invoke.
  - intros H1 H2 H3. rewrite unlink_eval. fold params params'.
    apply missing_or_not_string_false in H1, H2, H3.
    rewrite H1, H2, H3. apply issues_one_invoke_cb.
Qed.


(** [removeRoles] and [removePermissions] return only for a non-empty
    string [params.id]. *)
Lemma remove_from_returns_string_id (c : rest_client) (arguments : list value)
    (w : world remote) :
  returns perform (UsersManager.remove_from c arguments) w ->
  nonempty_string (field (arg 0 arguments) "id").
Proof.
  intros [v Hv]. unfold UsersManager.remove_from in Hv.
  destruct (nullish_cases (arg 0 arguments)) as [E | [E | [H1 H2]]];
    [rewrite E in Hv; discriminate | rewrite E in Hv; discriminate |].
  rewrite (read_field _ "id" H1 H2) in Hv.
  apply missing_or_not_string_false.
  change (Ret ?x ≫= ?f) with (f x) in Hv. cbv beta in Hv.
  destruct (negb (truthy (field (arg 0 arguments) "id"))); [discriminate |].
  destruct (negb (bool_decide _)); [discriminate | reflexivity].
Qed.

(** The test [!params || !params.id] as a boolean. *)
Lemma no_id_eval (params : value) :
  UsersManager.no_id params =
    Ret (negb (truthy params) || negb (truthy (field params "id"))).
Proof.
  unfold UsersManager.no_id, or_p. destruct (truthy params) eqn:T; simpl.
  - destruct (truthy_not_nullish params T) as [H1 H2].
    rewrite (read_field params "id" H1 H2). reflexivity.
  - reflexivity.
Qed.

(** C8: [deleteAll] throws an [ArgumentError], without any client call,
    whenever its first argument is not a function, in particular when it
    is called with no argument; when it is a function, [deleteAll]
    forwards its arguments in one [delete] call on the users client, so
    the callback stands where the parameters would and no id is passed.
    Every other method of [UsersManager] that ends in a [delete] call
    ([delete], [deleteMultifactorProvider], [unlink], [removeRoles],
    [removePermissions]) returns only when [params.id] is a string. *)
Theorem C8_deleteAll (this : UsersManager.t) (arguments : list value)
    (w : world remote) :
  let cb := arg 0 arguments in
  (typeof cb <> TFunction ->
     throws perform (UsersManager.deleteAll this arguments) w
       (ArgumentError "The deleteAll method only accepts a callback as argument"))
  /\ throws perform (UsersManager.deleteAll this []) w
       (ArgumentError "The deleteAll method only accepts a callback as argument")
  /\ (typeof cb = TFunction ->
       issues_one perform (UsersManager.deleteAll this arguments) w
         (Call (UsersManager.users this) "delete" arguments))
  /\ (returns perform (UsersManager.delete this arguments) w ->
       is_string (field (arg 0 arguments) "id"))
  /\ (returns perform (UsersManager.deleteMultifactorProvider this arguments) w ->
       is_string (field (or_else (arg 0 arguments) empty_object) "id"))
  /\ (returns perform (UsersManager.unlink this arguments) w ->
       is_string (field (or_else (arg 0 arguments) empty_object) "id"))
  /\ (returns perform (UsersManager.removeRoles this arguments) w ->
       is_string (field (arg 0 arguments) "id"))
  /\ (returns perform (UsersManager.removePermissions this arguments) w ->
       is_string (field (arg 0 arguments) "id")).
Proof.
  intros cb. repeat apply conj.
  - intros H. unfold throws, UsersManager.deleteAll. fold cb.
    by rewrite (bool_decide_eq_false_2 _ H).
  - reflexivity.
  - intros H. unfold UsersManager.deleteAll. fold cb.
    rewrite (bool_decide_eq_true_2 _ H). apply issues_one_invoke.
  - apply delete_returns_string_id.
  - intros H. apply deleteMultifactorProvider_returns_string_id in H.
    destruct H as (s & Hs & _). exists s. exact Hs.
  - intros H. apply unlink_returns_string_id in H.
    destruct H as (s & Hs & _). exists s. exact Hs.
  - intros H. apply remove_from_returns_string_id in H.
    destruct H as (s & Hs & _). exists s. exact Hs.
  - intros H. apply remove_from_returns_string_id in H.
    destruct H as (s & Hs & _). exists s. exact Hs.
Qed.

(** C9: [regenerateRecoveryCode] and [invalidateRememberBrowser] throw
    their [ArgumentError] exactly when [params] is falsy or [params.id]
    is falsy; for a truthy [params.id] of any type they make one [create]
    call with [params] and an empty object as body.  [delete], [unlink]
    and [deleteMultifactorProvider] return only when the id is a
    string. *)
Theorem C9_presence_only (this : UsersManager.t) (arguments : list value)
    (w : world remote) :
  let params := arg 0 arguments in
  let cb := arg 1 arguments in
  (truthy params = false \/ truthy (field params "id") = false ->
     throws perform (UsersManager.regenerateRecoveryCode this arguments) w
       (ArgumentError "The userId cannot be null or undefined")
     /\ throws perform (UsersManager.invalidateRememberBrowser this arguments) w
       (ArgumentError "The userId cannot be null or undefined"))
  /\ (truthy (field params "id") = true ->
       issues_one perform (UsersManager.regenerateRecoveryCode this arguments) w
         (Call (UsersManager.recoveryCodeRegenerations this) "create"
            ([params; VObject ∅] ++ callback_args cb))
       /\ issues_one perform (UsersManager.invalidateRememberBrowser this arguments) w
         (Call (UsersManager.invalidateRememberBrowsers this) "create"
            ([params; VObject ∅] ++ callback_args cb)))
  /\ (returns perform (UsersManager.delete this arguments) w ->
       is_string (field params "id"))
  /\ (returns perform (UsersManager.unlink this arguments) w ->
       is_string (field (or_else params empty_object) "id"))
  /\ (returns perform (UsersManager.deleteMultifactorProvider this arguments) w ->
       is_string (field (or_else params empty_object) "id")).
Proof.
  intros params cb. repeat apply conj.
  - intros H.
    assert (negb (truthy params) || negb (truthy (field params "id")) = true) as Hb.
    { destruct H as [-> | ->]; [reflexivity | apply orb_true_r]. }
    unfold throws, UsersManager.regenerateRecoveryCode,
      UsersManager.invalidateRememberBrowser.
    fold params. rewrite no_id_eval.
    change (Ret ?x ≫= ?f) with (f x). cbv beta. rewrite Hb. split; reflexivity.
  - intros H2. pose proof (truthy_field params "id" H2) as H1.
    unfold UsersManager.regenerateRecoveryCode,
      UsersManager.invalidateRememberBrowser.
    fold params cb. rewrite no_id_eval.
    change (Ret ?x ≫= ?f) with (f x). cbv beta. rewrite H1, H2. simpl negb. simpl orb.
    split; apply (issues_one_invoke_cb perform _ "create" [params; empty_object]).
  - apply delete_returns_string_id.
  - intros H. apply unlink_returns_string_id in H.
    destruct H as (s & Hs & _). exists s. exact Hs.
  - intros H. apply deleteMultifactorProvider_returns_string_id in H.
    destruct H as (s & Hs & _). exists s. exact Hs.
Qed.

End Validation.

(** ** The validation at concrete arguments *)



(** [delete({id: 'auth0|1'})] is forwarded, [unlink()] is refused. *)
Lemma C2_validation_before_delegation_witness :
  issues_one idle
    (UsersManager.delete tenant_users [VObject {["id" := VStr "auth0|1"]}]) fresh
    (Call (UsersManager.users tenant_users) "delete"
       [VObject {["id" := VStr "auth0|1"]}])
  /\ raises_ArgumentError idle (UsersManager.unlink tenant_users []) fresh.
Proof.
  split.
  - apply (C2_validation_before_delegation idle tenant_users
             [VObject {["id" := VStr "auth0|1"]}] fresh).
    + eexists. reflexivity.
    + eexists. reflexivity.
  - apply (C2_validation_before_delegation idle tenant_users [] fresh).
    left. intros (s & Hs & _). discriminate Hs.
Defined.

(** The claim as written fails twice.  [null] is not an object, yet
    [delete(null)] ends with a [TypeError], not an [ArgumentError]; and in
    [{id: '', user_id: 'u', provider: 'p'}] the three fields are present
    and are strings, yet [unlink] raises an [ArgumentError]. *)
Lemma C2_counterexample :
  ~ (forall (this : UsersManager.t) (arguments : list value) (w : world unit),
       ~ is_object (arg 0 arguments) ->
       raises_ArgumentError idle (UsersManager.delete this arguments) w)
  /\ ~ (forall (this : UsersManager.t) (arguments : list value) (w : world unit),
          is_string (field (arg 0 arguments) "id") ->
          is_string (field (arg 0 arguments) "user_id") ->
          is_string (field (arg 0 arguments) "provider") ->
          ~ raises_ArgumentError idle (UsersManager.unlink this arguments) w).
Proof.
  split.
  - intros H. destruct (H tenant_users [VNull] fresh) as [m Hm].
    + intros [].
    + unfold throws in Hm. discriminate Hm.
  - intros H.
    apply (H tenant_users
             [VObject (<["id" := VStr ""]>
                       (<["user_id" := VStr "u"]> {["provider" := VStr "p"]}))]
             fresh).
    + by eexists.
    + by eexists.
    + by eexists.
    + eexists. reflexivity.
Qed.

(** [deleteAll(callback)] deletes, [deleteAll()] is refused. *)
Lemma C8_deleteAll_witness :
  issues_one idle (UsersManager.deleteAll tenant_users [callback]) fresh
    (Call (UsersManager.users tenant_users) "delete" [callback])
  /\ throws idle (UsersManager.deleteAll tenant_users []) fresh
       (ArgumentError "The deleteAll method only accepts a callback as argument").
Proof.
  split.
  - apply (C8_deleteAll idle tenant_users [callback] fresh). reflexivity.
  - apply (C8_deleteAll idle tenant_users [] fresh).
Defined.

(** A numeric id passes the presence test: [regenerateRecoveryCode({id: 7})]
    makes its [create] call. *)
Lemma C9_presence_only_witness :
  issues_one idle
    (UsersManager.regenerateRecoveryCode tenant_users [VObject {["id" := VNum 7]}])
    fresh
    (Call (UsersManager.recoveryCodeRegenerations tenant_users) "create"
       [VObject {["id" := VNum 7]}; VObject ∅])
  /\ throws idle (UsersManager.invalidateRememberBrowser tenant_users [VObject ∅]) fresh
       (ArgumentError "The userId cannot be null or undefined").
Proof.
  split.
  - apply (C9_presence_only idle tenant_users [VObject {["id" := VNum 7]}] fresh);
      reflexivity.
  - apply (C9_presence_only idle tenant_users [VObject ∅] fresh).
    right. reflexivity.
Defined.

(** ** Operations and HTTP methods *)

Section Verbs.
Context {remote : Type}.
Variable perform : call -> remote -> value * remote.

Lemma delete_returns_issues_one (this : UsersManager.t) (arguments : list value)
    (w : world remote) :
  returns perform (UsersManager.delete this arguments) w ->
  issues_one perform (UsersManager.delete this arguments) w
    (Call (UsersManager.users this) "delete" arguments).
Proof.
  intros H. pose proof (delete_returns_string_id perform this arguments w H) as Hid.
  destruct H as [v Hv].
  destruct (arg 0 arguments) as [| | b | n | | s | props | props] eqn:E;
    try (destruct (delete_not_object perform this arguments w) as [m Hm];
         [rewrite E; discriminate | unfold throws in Hm; rewrite Hm in Hv;
          discriminate Hv]).
  - destruct Hid as [s Hs]. discriminate Hs.
  - rewrite (delete_object this arguments props E).
    rewrite bool_decide_eq_true_2; [| by apply typeof_string].
    apply issues_one_invoke.
Qed.

(** C5: the update operation of every manager is one HTTP PATCH request:
    [UsersManager.update] calls [patch] on the users client,
    [ConnectionsManager.update] calls [resource.patch], and the legacy
    [Users.update] calls [resource.update], which the client carries out
    as PATCH.  Likewise create is one POST, get and getAll are one GET,
    and delete is one DELETE, whenever [UsersManager.delete] accepts its
    arguments. *)
Theorem C5_operations_and_verbs (um : UsersManager.t) (cm : ConnectionsManager.t)
    (lu : Users.t) (arguments : list value) (w : world remote) :
  (carried_out_as perform (UsersManager.update um arguments) w
     (Call (UsersManager.users um) "patch" arguments) PATCH
   /\ carried_out_as perform (ConnectionsManager.update cm arguments) w
        (Call (ConnectionsManager.resource cm) "patch" arguments) PATCH
   /\ carried_out_as perform (Users.update lu arguments) w
        (Call (Users.resource lu) "update" arguments) PATCH)
  /\ (carried_out_as perform (UsersManager.create um arguments) w
        (Call (UsersManager.users um) "create"
           ([arg 0 arguments] ++ callback_args (arg 1 arguments))) POST
      /\ carried_out_as perform (ConnectionsManager.create cm arguments) w
           (Call (ConnectionsManager.resource cm) "create" arguments) POST
      /\ carried_out_as perform (Users.create lu arguments) w
           (Call (Users.resource lu) "create" [arg 0 arguments; arg 1 arguments]) POST)
  /\ (carried_out_as perform (UsersManager.get um arguments) w
        (Call (UsersManager.users um) "get" arguments) GET
      /\ carried_out_as perform (ConnectionsManager.get cm arguments) w
           (Call (ConnectionsManager.resource cm) "get" arguments) GET
      /\ carried_out_as perform (Users.get lu arguments) w
           (Call (Users.resource lu) "get" arguments) GET)
  /\ (carried_out_as perform (UsersManager.getAll um arguments) w
        (Call (UsersManager.users um) "getAll" arguments) GET
      /\ carried_out_as perform (ConnectionsManager.getAll cm arguments) w
           (Call (ConnectionsManager.resource cm) "getAll" arguments) GET
      /\ carried_out_as perform (Users.getAll lu arguments) w
           (Call (Users.resource lu) "getAll" arguments) GET)
  /\ ((returns perform (UsersManager.delete um arguments) w ->
        carried_out_as perform (UsersManager.delete um arguments) w
          (Call (UsersManager.users um) "delete" arguments) DELETE)
      /\ carried_out_as perform (ConnectionsManager.delete cm arguments) w
           (Call (ConnectionsManager.resource cm) "delete" arguments) DELETE
      /\ carried_out_as perform (Users.delete lu arguments) w
           (Call (Users.resource lu) "delete" arguments) DELETE).
Proof.
  unfold carried_out_as.
  repeat apply conj; try reflexivity;
    try apply issues_one_invoke; try apply issues_one_invoke_cb.
  intros H. split; [by apply delete_returns_issues_one | reflexivity].
Qed.

End Verbs.

(** [delete({id: 'auth0|1'})] is one DELETE request. *)
Lemma C5_operations_and_verbs_witness :
  carried_out_as idle
    (UsersManager.delete tenant_users [VObject {["id" := VStr "auth0|1"]}]) fresh
    (Call (UsersManager.users tenant_users) "delete"
       [VObject {["id" := VStr "auth0|1"]}]) DELETE.
Proof.
  apply (C5_operations_and_verbs idle tenant_users tenant_connections
           tenant_legacy_users [VObject {["id" := VStr "auth0|1"]}] fresh).
  eexists. reflexivity.
Defined.

(** ** State shared between instances *)

Section Sharing.
Context {remote : Type}.
Variable perform : call -> remote -> value * remote.

(** The constructor of [UsersManager] declares [clientOptions] with
    [var]: whatever the options, it leaves the world as it was. *)
Lemma UsersManager_new_writes_nothing (options : value) (w : world remote) :
  snd (run perform (UsersManager.new options) w) = w.
Proof.
  unfold UsersManager.new.
  destruct options as [| | b | n | | s | props | props]; try reflexivity.
  simpl. destruct (props !! "baseUrl") as [[| | b | n | | s | ps | ps] |];
    try reflexivity.
  destruct s; reflexivity.
Qed.

(** The constructor of [ConnectionsManager] assigns the global variable
    [apiOptions] whenever it accepts its options. *)
Lemma ConnectionsManager_new_writes_global (props : gmap string value)
    (b : string) (w : world remote) :
  props !! "baseUrl" = Some (VStr b) -> b <> "" ->
  globals (snd (run perform (ConnectionsManager.new (VObject props)) w))
    !! "apiOptions"
  = Some (apiOptions_of (default VUndefined (props !! "headers"))).
Proof.
  intros Hb Hne. rewrite (ConnectionsManager_new_accepted perform props b w Hb Hne).
  simpl. by rewrite lookup_insert_eq.
Qed.

End Sharing.

(** C6, at the input where the code departs from it: constructing a
    [ConnectionsManager] assigns the global variable [apiOptions], absent
    before, and constructing a second one with other headers replaces the
    value that the first left there; the constructor of [UsersManager],
    which declares its options with [var], leaves the globals alone. *)
Theorem C6_ConnectionsManager_assigns_global :
  exists (m1 m2 : ConnectionsManager.t) (w1 w2 : world unit),
    run idle (ConnectionsManager.new options_one) fresh = (Returned m1, w1)
    /\ run idle (ConnectionsManager.new options_two) w1 = (Returned m2, w2)
    /\ globals fresh !! "apiOptions" = None
    /\ globals w1 !! "apiOptions"
       = Some (apiOptions_of (VObject {["x-app" := VStr "one"]}))
    /\ globals w2 !! "apiOptions"
       = Some (apiOptions_of (VObject {["x-app" := VStr "two"]}))
    /\ globals w1 !! "apiOptions" <> globals w2 !! "apiOptions"
    /\ snd (run idle (UsersManager.new options_one) fresh) = fresh.
Proof.
  assert (forall h : string,
            (<["baseUrl" := VStr "https://tenant.auth0.com/api/v2"]>
               ({["headers" := VObject {["x-app" := VStr h]}]} : gmap string value))
              !! "baseUrl" = Some (VStr "https://tenant.auth0.com/api/v2")) as Hb.
  { intros h. apply lookup_insert_eq. }
  assert (forall h : string,
            (<["baseUrl" := VStr "https://tenant.auth0.com/api/v2"]>
               ({["headers" := VObject {["x-app" := VStr h]}]} : gmap string value))
              !! "headers" = Some (VObject {["x-app" := VStr h]})) as Hh.
  { intros h. rewrite lookup_insert_ne by discriminate. apply lookup_singleton_eq. }
  do 4 eexists.
  split; [| split; [| split; [| split; [| split; [| split]]]]].
  - unfold options_one.
    rewrite (ConnectionsManager_new_accepted idle _ _ fresh (Hb "one"));
      [reflexivity | discriminate].
  - unfold options_two.
    rewrite (ConnectionsManager_new_accepted idle _ _ _ (Hb "two"));
      [reflexivity | discriminate].
  - reflexivity.
  - simpl. rewrite lookup_insert_eq, (Hh "one"). reflexivity.
  - simpl. rewrite lookup_insert_eq, (Hh "two"). reflexivity.
  - intros H.
    apply (f_equal (fun o : option value =>
                      field (field (default VUndefined o) "headers") "x-app")) in H.
    vm_compute in H. discriminate H.
  - apply UsersManager_new_writes_nothing.
Qed.

(** ** The retry budget *)

Section Budget.
Context {R E : Type}.
Variable p : Retry.policy E.
Variable transport : nat -> E + R.

Local Abbreviation steps := (Retry.steps p transport).
Local Abbreviation step := (Retry.step p transport).

Lemma steps_terminal (fuel : nat) (s : Retry.state R E) :
  Retry.terminal s = true -> steps fuel s = (s, []).
Proof.
  intros Ht. induction fuel as [| fuel IH]; [reflexivity |].
  destruct s; try discriminate Ht; simpl; rewrite IH; reflexivity.
Qed.

Lemma steps_unfold (fuel : nat) (s : Retry.state R E) :
  steps (S fuel) s =
    (fst (steps fuel (fst (step s))),
     (snd (step s) ++ snd (steps fuel (fst (step s))))%list).
Proof.
  simpl. destruct (Retry.step p transport s) as [s1 ev1]. simpl.
  destruct (Retry.steps p transport fuel s1) as [s2 ev2]. reflexivity.
Qed.

Lemma attempts_app (l1 l2 : list Retry.event) :
  Retry.attempts (l1 ++ l2) = (Retry.attempts l1 ++ Retry.attempts l2)%list.
Proof. apply omap_app. Qed.

(** Whatever the transport does and however long the machine is run, the
    attempts made from [Attempting n] fit in what is left of the
    budget. *)
Lemma attempts_bounded (fuel n : nat) :
  n <= Retry.maxRetries p ->
  length (Retry.attempts (snd (steps fuel (Retry.Attempting n))))
    <= S (Retry.maxRetries p) - n.
Proof.
  revert n. induction fuel as [| fuel IH]; intros n Hn; [simpl; lia |].
  rewrite steps_unfold. simpl snd. rewrite attempts_app, length_app.
  unfold Retry.step.
  destruct (transport n) as [e | r].
  - destruct (Retry.retryCondition p e).
    + destruct (n <? Retry.maxRetries p)%nat eqn:Hlt.
      * apply Nat.ltb_lt in Hlt. simpl fst. simpl snd.
        specialize (IH (S n) Hlt). simpl Retry.attempts at 1. simpl length at 1. lia.
      * simpl fst. simpl snd. rewrite steps_terminal by reflexivity. simpl. lia.
    + simpl fst. simpl snd. rewrite steps_terminal by reflexivity. simpl. lia.
  - simpl fst. simpl snd. rewrite steps_terminal by reflexivity. simpl. lia.
Qed.

(** From [Attempting n], the transitions that the budget leaves are
    enough to reach a terminal state. *)
Lemma reaches_terminal (k n : nat) :
  n + k = Retry.maxRetries p ->
  Retry.terminal (fst (steps (S k) (Retry.Attempting n))) = true.
Proof.
  revert n. induction k as [| k IH]; intros n Hn; rewrite steps_unfold; simpl fst;
    unfold Retry.step.
  - destruct (transport n) as [e | r]; [| reflexivity].
    destruct (Retry.retryCondition p e); [| reflexivity].
    destruct (n <? Retry.maxRetries p)%nat eqn:Hlt; [| reflexivity].
    apply Nat.ltb_lt in Hlt. lia.
  - destruct (transport n) as [e | r];
      [| simpl fst; rewrite steps_terminal; reflexivity].
    destruct (Retry.retryCondition p e);
      [| simpl fst; rewrite steps_terminal; reflexivity].
    destruct (n <? Retry.maxRetries p)%nat eqn:Hlt;
      [| simpl fst; rewrite steps_terminal; reflexivity].
    simpl fst. apply IH. lia.
Qed.

(** Against a transport that fails retryably every time, the machine
    makes the attempts [n], [n+1], ..., [maxRetries] and ends exhausted
    with the error of the last one. *)
Lemma exhausts (k n : nat) :
  (forall i, exists e, transport i = inl e /\ Retry.retryCondition p e = true) ->
  n + k = Retry.maxRetries p ->
  exists last,
    transport (Retry.maxRetries p) = inl last
    /\ fst (steps (S k) (Retry.Attempting n)) = Retry.ExhaustedFailure last
    /\ Retry.attempts (snd (steps (S k) (Retry.Attempting n))) = seq n (S k).
Proof.
  intros Hall. revert n. induction k as [| k IH]; intros n Hn;
    rewrite steps_unfold; unfold Retry.step;
    destruct (Hall n) as (e & He & Hr); rewrite He, Hr.
  - assert (n = Retry.maxRetries p) as -> by lia.
    rewrite Nat.ltb_irrefl. exists e. rewrite He. repeat split.
  - assert ((n <? Retry.maxRetries p)%nat = true) as -> by (apply Nat.ltb_lt; lia).
    destruct (IH (S n)) as (last & Hlast & Hst & Hat); [lia |].
    exists last. split; [exact Hlast |]. split; [exact Hst |].
    cbn [fst snd]. rewrite attempts_app, Hat. reflexivity.
Qed.

(** C1: with [maxRetries = N], a call through the retry wrapper against a
    transport that returns a retryable error on each attempt makes
    exactly the [N+1] attempts [0], ..., [N], one after the other, and is
    rejected with an [ExhaustedRetryError] that wraps the error of the
    last attempt.  For every transport, the call reaches a terminal state
    within its [N+1] transitions and, however long the machine were run,
    the attempts never number more than [N+1]. *)
Theorem C1_retry_budget :
  ((forall i, exists e, transport i = inl e /\ Retry.retryCondition p e = true) ->
   exists last,
     transport (Retry.maxRetries p) = inl last
     /\ Retry.settled (fst (Retry.call p transport))
        = Some (inl (Retry.ExhaustedRetryError last))
     /\ Retry.attempts (snd (Retry.call p transport))
        = seq 0 (S (Retry.maxRetries p)))
  /\ Retry.terminal (fst (Retry.call p transport)) = true
  /\ (forall fuel,
        length (Retry.attempts (snd (steps fuel (Retry.Attempting 0))))
          <= Retry.maxRetries p + 1).
Proof.
  split; [| split].
  - intros Hall.
    destruct (exhausts (Retry.maxRetries p) 0 Hall eq_refl) as (last & H1 & H2 & H3).
    exists last. unfold Retry.call. rewrite H2, H3. repeat split. exact H1.
  - apply reaches_terminal. reflexivity.
  - intros fuel. pose proof (attempts_bounded fuel 0). lia.
Qed.

End Budget.

(** The spec's scenarios for the wrapper.  A transport that succeeds on the
    second attempt is tried twice under [maxRetries = 3]; a 404 is never
    tried again. *)
Example retry_short_circuit :
  Retry.call (Retry.Policy 3 (Retry.retryCondition retry_transient) 100 2)
    (fun n => match n with O => inl 503 | _ => inr "ok" end)
  = (Retry.Success "ok", [Retry.Attempt 0; Retry.Wait 100; Retry.Attempt 1]).
Proof. reflexivity. Qed.

Example retry_not_found :
  Retry.call retry_transient (fun _ => inl 404 : nat + string)
  = (Retry.FatalFailure 404, [Retry.Attempt 0]).
Proof. reflexivity. Qed.

(** The overloaded transport is tried three times, and the caller receives
    the exhaustion error that wraps the last 503. *)
Lemma C1_retry_budget_witness :
  Retry.settled (fst (Retry.call retry_transient overloaded))
  = Some (inl (Retry.ExhaustedRetryError 503))
  /\ Retry.attempts (snd (Retry.call retry_transient overloaded)) = [0; 1; 2].
Proof.
  destruct (C1_retry_budget retry_transient overloaded) as [H _].
  destruct H as (last & H1 & H2 & H3).
  - intros i. exists 503. split; reflexivity.
  - injection H1 as <-. split; [exact H2 | exact H3].
Defined.

(** ** The template of the connections resource *)

Lemma append_assoc (a b c : string) : ((a ++ b) ++ c = a ++ (b ++ c))%string.
Proof.
  induction a as [| x a IH]; [reflexivity |].
  change (String x ((a ++ b) ++ c) = String x (a ++ (b ++ c)))%string.
  by rewrite IH.
Qed.

Lemma split_slash_nonempty (s : string) : UrlTemplate.split_slash s <> [].
Proof.
  destruct s as [| c s]; simpl; [discriminate |].
  destruct (Ascii.eqb c "/"); [discriminate |].
  destruct (UrlTemplate.split_slash s); discriminate.
Qed.

(** Splitting past a slash splits each side. *)
Lemma split_slash_app (b r : string) :
  UrlTemplate.split_slash (b ++ String "/" r)
  = (UrlTemplate.split_slash b ++ UrlTemplate.split_slash r)%list.
Proof.
  induction b as [| c b IH].
  - reflexivity.
  - change (String c b ++ String "/" r)%string with (String c (b ++ String "/" r)).
    cbn [UrlTemplate.split_slash]. rewrite IH.
    destruct (Ascii.eqb c "/"); [reflexivity |].
    pose proof (split_slash_nonempty b) as Hne.
    destruct (UrlTemplate.split_slash b) as [| seg segs]; [contradiction |].
    reflexivity.
Qed.

(** Joining ends with the join of any non-empty tail. *)
Lemma join_slash_app (xs ys : list string) :
  ys <> [] ->
  exists prefix,
    UrlTemplate.join_slash (xs ++ ys) = (prefix ++ UrlTemplate.join_slash ys)%string.
Proof.
  intros Hys. induction xs as [| x xs [prefix IH]].
  - exists "". reflexivity.
  - exists (x ++ "/" ++ prefix)%string.
    change ((x :: xs) ++ ys)%list with (x :: (xs ++ ys))%list.
    destruct (xs ++ ys)%list as [| z zs] eqn:E.
    + destruct xs; [simpl in E; contradiction | discriminate E].
    + change (UrlTemplate.join_slash (x :: z :: zs))
        with (x ++ "/" ++ UrlTemplate.join_slash (z :: zs))%string.
      rewrite IH, !append_assoc. reflexivity.
Qed.

Lemma last_char_app (s : string) (c : ascii) :
  UrlTemplate.last_char (s ++ String c "") = Some c.
Proof.
  induction s as [| x s IH]; [reflexivity |].
  change (String x s ++ String c "")%string with (String x (s ++ String c "")).
  cbn [UrlTemplate.last_char]. rewrite IH.
  destruct (s ++ String c "")%string eqn:E; [| reflexivity].
  destruct s; discriminate E.
Qed.

Lemma last_char_snoc (s t : string) (c : ascii) :
  UrlTemplate.last_char (s ++ t ++ String c "") = Some c.
Proof. rewrite <- append_assoc. apply last_char_app. Qed.

(** The spec's example template, with and without its parameter. *)
Example resolve_roles_with_id :
  UrlTemplate.resolve to_string UrlTemplate.whole_segment "/users/:id/roles"
    (<["id" := VStr "u1"]> {["page" := VNum 2]})
  = ("/users/u1/roles", {["page" := VNum 2]}).
Proof. vm_compute. reflexivity. Qed.

Example resolve_roles_without_id :
  fst (UrlTemplate.resolve to_string UrlTemplate.whole_segment "/users/:id/roles" ∅)
  = "/users/roles".
Proof. reflexivity. Qed.

Section Template.
Context {remote : Type}.
Variable perform : call -> remote -> value * remote.
Variable escape : value -> string.
Variable name_of : string -> string * string.

(** The segments of the connections template. *)
Lemma connections_segments (b : string) :
  UrlTemplate.split_slash (b ++ "/connections/:id ")
  = (UrlTemplate.split_slash b ++ ["connections"; ":id "])%list.
Proof. rewrite split_slash_app. reflexivity. Qed.

(** The last segment of the template holds the placeholder; without a
    value for its name, wherever the name ends, the segment goes. *)
Lemma id_segment_absent (params : gmap string value) :
  params !! fst (name_of "id ") = None ->
  UrlTemplate.resolve_segment escape name_of params ":id " = None.
Proof.
  intros H. unfold UrlTemplate.resolve_segment.
  destruct (name_of "id ") as [name suffix]. simpl in H. by rewrite H.
Qed.

(** C10, as amended: for every accepted [baseUrl], the constructor of
    [ConnectionsManager] builds its resource from the template
    [baseUrl + '/connections/:id '], whose last character is a space.  A
    path resolved from it when the parameters hold no value for the
    placeholder, as for [create] and [getAll], has the whole segment of
    the placeholder removed, the space with it: it ends in
    ['connections'].  This holds wherever the resolver ends the name of a
    placeholder and however it escapes values. *)
Theorem C10_connections_template (props : gmap string value) (b : string)
    (w : world remote) (params : gmap string value) :
  props !! "baseUrl" = Some (VStr b) -> b <> "" ->
  exists (this : ConnectionsManager.t) (template : string),
    fst (run perform (ConnectionsManager.new (VObject props)) w) = Returned this
    /\ resource_url (ConnectionsManager.resource this) = VStr template
    /\ template = (b ++ "/connections/:id ")%string
    /\ UrlTemplate.last_char template = Some " "%char
    /\ (params !! fst (name_of "id ") = None ->
          UrlTemplate.last_char
            (fst (UrlTemplate.resolve escape name_of template params))
          = Some "s"%char
          /\ exists prefix,
               fst (UrlTemplate.resolve escape name_of template params)
               = (prefix ++ "connections")%string).
Proof.
  intros Hb Hne.
  rewrite (ConnectionsManager_new_accepted perform props b w Hb Hne).
  eexists. exists (b ++ "/connections/:id ")%string.
  split; [reflexivity |]. split; [reflexivity |]. split; [reflexivity |].
  split.
  - apply (last_char_snoc b "/connections/:id").
  - intros Hv. unfold UrlTemplate.resolve. cbn [fst].
    rewrite connections_segments, omap_app.
    assert (omap (UrlTemplate.resolve_segment escape name_of params)
              ["connections"; ":id "]
            = ["connections"]) as ->.
    { cbn [omap list_omap]. rewrite (id_segment_absent params Hv). reflexivity. }
    destruct (join_slash_app
                (omap (UrlTemplate.resolve_segment escape name_of params)
                   (UrlTemplate.split_slash b))
                ["connections"]) as [prefix Hp]; [discriminate |].
    rewrite Hp. cbn [UrlTemplate.join_slash]. split.
    + apply (last_char_snoc prefix "connection").
    + by exists prefix.
Qed.

End Template.

(** The path of [getAll()] on the tenant ends in ['connections']. *)
Lemma C10_connections_template_witness :
  UrlTemplate.last_char
    (fst (UrlTemplate.resolve to_string UrlTemplate.whole_segment
            "https://tenant.auth0.com/api/v2/connections/:id " ∅))
  = Some "s"%char.
Proof.
  destruct (C10_connections_template idle to_string UrlTemplate.whole_segment
              {["baseUrl" := VStr "https://tenant.auth0.com/api/v2"]}
              "https://tenant.auth0.com/api/v2" fresh ∅)
    as (this & template & _ & _ & -> & _ & Hid).
  - reflexivity.
  - discriminate.
  - apply Hid. reflexivity.
Defined.

(** The claim as written fails where no id is supplied: wherever the
    resolver ends the name of the placeholder and however it escapes
    values, the path that [getAll()] resolves from the template of the
    tenant's connections manager is the collection path, whose last
    character is not a space. *)
Lemma C10_counterexample :
  template_of (ConnectionsManager.resource tenant_connections)
  = "https://tenant.auth0.com/api/v2/connections/:id "
  /\ (forall (escape : value -> string) (name_of : string -> string * string),
        fst (UrlTemplate.resolve escape name_of
               (template_of (ConnectionsManager.resource tenant_connections)) ∅)
        = "https://tenant.auth0.com/api/v2/connections")
  /\ ~ (exists (escape : value -> string) (name_of : string -> string * string),
          forall params : gmap string value,
            UrlTemplate.last_char
              (fst (UrlTemplate.resolve escape name_of
                      (template_of (ConnectionsManager.resource tenant_connections))
                      params))
            = Some " "%char).
Proof.
  assert (forall (escape : value -> string) (name_of : string -> string * string),
            fst (UrlTemplate.resolve escape name_of
                   (template_of (ConnectionsManager.resource tenant_connections)) ∅)
            = "https://tenant.auth0.com/api/v2/connections") as Hpath.
  { intros escape name_of.
    change (template_of (ConnectionsManager.resource tenant_connections))
      with "https://tenant.auth0.com/api/v2/connections/:id ".
    unfold UrlTemplate.resolve. cbn [fst].
    change (UrlTemplate.split_slash "https://tenant.auth0.com/api/v2/connections/:id ")
      with ["https:"; ""; "tenant.auth0.com"; "api"; "v2"; "connections"; ":id "].
    cbn [omap list_omap].
    rewrite (id_segment_absent escape name_of ∅ (lookup_empty _)).
    reflexivity. }
  split; [reflexivity |]. split; [exact Hpath |].
  intros (escape & name_of & H). specialize (H ∅). rewrite Hpath in H.
  discriminate H.
Qed.

(** * Further properties of the managers *)

(** ** The shape of every method of UsersManager *)

Section Shapes.
Context {remote X : Type}.
Variable perform : call -> remote -> value * remote.
Variable answer : call -> remote -> (X + value) * remote.

Lemma run_raising_invoke (c : rest_client) (m : string) (args : list value)
    (w : world remote) :
  run_raising answer (invoke c m args) w
  = (as_call_ends answer (Call c m args) w, after_call answer (Call c m args) w).
Proof.
  unfold invoke, as_call_ends, after_call. simpl.
  destruct (answer (Call c m args) (server w)) as [[x | v] s]; reflexivity.
Qed.

Lemma run_raising_invoke_cb (c : rest_client) (m : string) (args : list value)
    (cb : value) (w : world remote) :
  run_raising answer (invoke_cb c m args cb) w
  = (as_call_ends answer (Call c m (args ++ callback_args cb)) w,
     after_call answer (Call c m (args ++ callback_args cb)) w).
Proof.
  unfold invoke_cb, callback_args. rewrite truthy_function.
  destruct (instanceof_Function cb).
  - apply run_raising_invoke.
  - rewrite app_nil_r. apply run_raising_invoke.
Qed.

(** [delete] by the cases of its first argument. *)
Lemma delete_eval (this : UsersManager.t) (arguments : list value) :
  UsersManager.delete this arguments =
    match arg 0 arguments with
    | VNull => Throw (TypeError "Cannot read properties of null (reading 'id')")
    | VObject props =>
        if bool_decide (typeof (field (VObject props) "id") = TString)
        then invoke (UsersManager.users this) "delete" arguments
        else Throw (ArgumentError "You must provide an id for the delete method")
    | _ => Throw (ArgumentError "You must provide an id for the delete method")
    end.
Proof.
  destruct (arg 0 arguments) as [| | b | n | | s | props | props] eqn:E;
    try (unfold UsersManager.delete; rewrite E; reflexivity).
  apply (delete_object this arguments props E).
Qed.

Lemma atomic_throw (cs : list rest_client) (e : exn) (w : world remote) :
  atomic answer cs (Throw e) w.
Proof. left. exists e. reflexivity. Qed.

Lemma atomic_invoke (cs : list rest_client) (c : rest_client) (m : string)
    (args : list value) (w : world remote) :
  In c cs -> atomic answer cs (invoke c m args) w.
Proof. intros Hc. right. eexists. split; [| apply run_raising_invoke]. exact Hc. Qed.

Lemma atomic_invoke_cb (cs : list rest_client) (c : rest_client) (m : string)
    (args : list value) (cb : value) (w : world remote) :
  In c cs -> atomic answer cs (invoke_cb c m args cb) w.
Proof. intros Hc. right. eexists. split; [| apply run_raising_invoke_cb]. exact Hc. Qed.

(** [logs] as its single test. *)
Lemma logs_eval (this : UsersManager.t) (arguments : list value) :
  let params := or_else (arg 0 arguments) empty_object in
  UsersManager.logs this arguments =
    if negb (truthy (field params "id"))
       || negb (bool_decide (typeof (field params "id") = TString))
    then Throw (ArgumentError "id field is required")
    else invoke (UsersManager.userLogs this) "get" [params; arg 1 arguments].
Proof.
  intros params. unfold UsersManager.logs. fold params.
  destruct (or_else_object (arg 0 arguments)) as [H1 H2]. fold params in H1, H2.
  rewrite (missing_or_not_string_eval params _ H1 H2). reflexivity.
Qed.

(** The writers of roles and permissions on [null] and [undefined]: the
    read of [params.id] throws before anything else. *)
Lemma assign_to_nullish (c : rest_client) (arguments : list value) :
  nullish (arg 0 arguments) ->
  exists message, UsersManager.assign_to c arguments = Throw (TypeError message).
Proof.
  unfold UsersManager.assign_to. intros [-> | ->]; eexists; reflexivity.
Qed.

Lemma remove_from_nullish (c : rest_client) (arguments : list value) :
  nullish (arg 0 arguments) ->
  exists message, UsersManager.remove_from c arguments = Throw (TypeError message).
Proof.
  unfold UsersManager.remove_from. intros [-> | ->]; eexists; reflexivity.
Qed.

(** The same writers on any other value, as a cascade of their two
    tests. *)
Lemma assign_to_eval (c : rest_client) (arguments : list value) :
  ~ nullish (arg 0 arguments) ->
  let params := arg 0 arguments in
  UsersManager.assign_to c arguments =
    if negb (truthy (field params "id"))
    then Throw (ArgumentError "The user_id cannot be null or undefined")
    else if negb (bool_decide (typeof (field params "id") = TString))
    then Throw (ArgumentError "The user_id has to be a string")
    else invoke_cb c "create"
           [or_else params empty_object; or_else (arg 1 arguments) empty_object]
           (arg 2 arguments).
Proof.
  intros Hn params. unfold UsersManager.assign_to. fold params.
  rewrite (read_field params "id"); [reflexivity | |];
    intros E; apply Hn; [left | right]; exact E.
Qed.

Lemma remove_from_eval (c : rest_client) (arguments : list value) :
  ~ nullish (arg 0 arguments) ->
  let params := arg 0 arguments in
  UsersManager.remove_from c arguments =
    if negb (truthy (field params "id"))
    then Throw (ArgumentError "The user_id cannot be null or undefined")
    else if negb (bool_decide (typeof (field params "id") = TString))
    then Throw (ArgumentError "The user_id has to be a string")
    else invoke_cb c "delete"
           [or_else params empty_object; or_else (arg 1 arguments) empty_object]
           (arg 2 arguments).
Proof.
  intros Hn params. unfold UsersManager.remove_from. fold params.
  rewrite (read_field params "id"); [reflexivity | |];
    intros E; apply Hn; [left | right]; exact E.
Qed.

Lemma nullish_or_not (v : value) : nullish v \/ ~ nullish v.
Proof.
  destruct (nullish_cases v) as [E | [E | [H1 H2]]].
  - left. by left.
  - left. by right.
  - right. intros [E | E]; contradiction.
Qed.

(** Closes a goal [atomic] on a cascade of tests that ends in throws and
    client calls. *)
Ltac atomic_cascade :=
  repeat match goal with
         | |- atomic _ _ (if ?b then _ else _) _ => destruct b
         | |- atomic _ _ (Throw _) _ => apply atomic_throw
         | |- atomic _ _ (invoke _ _ _) _ => apply atomic_invoke
         | |- atomic _ _ (invoke_cb _ _ _ _) _ => apply atomic_invoke_cb
         | |- In _ (UsersManager.clients _) => unfold UsersManager.clients; simpl; tauto
         end.

Lemma atomic_delete (this : UsersManager.t) (arguments : list value)
    (w : world remote) :
  atomic answer (UsersManager.clients this) (UsersManager.delete this arguments) w.
Proof.
  rewrite delete_eval. destruct (arg 0 arguments); atomic_cascade.
Qed.

Lemma atomic_assign_to (cs : list rest_client) (c : rest_client)
    (arguments : list value) (w : world remote) :
  In c cs -> atomic answer cs (UsersManager.assign_to c arguments) w.
Proof.
  intros Hc. destruct (nullish_or_not (arg 0 arguments)) as [Hn | Hn].
  - destruct (assign_to_nullish c arguments Hn) as [m ->]. apply atomic_throw.
  - rewrite (assign_to_eval c arguments Hn). atomic_cascade; exact Hc.
Qed.

Lemma atomic_remove_from (cs : list rest_client) (c : rest_client)
    (arguments : list value) (w : world remote) :
  In c cs -> atomic answer cs (UsersManager.remove_from c arguments) w.
Proof.
  intros Hc. destruct (nullish_or_not (arg 0 arguments)) as [Hn | Hn].
  - destruct (remove_from_nullish c arguments Hn) as [m ->]. apply atomic_throw.
  - rewrite (remove_from_eval c arguments Hn). atomic_cascade; exact Hc.
Qed.

(** X1: every method of [UsersManager] is all or nothing, also when the
    client may throw.  On arguments that are plain data, it either throws
    an exception of its own with the world exactly as it found it (no
    client call, no global written), or it makes one client call, on one
    of the clients that the manager holds, and ends as that call ends: it
    returns what the call returned or passes on what the call threw,
    having made that call and no other. *)
Theorem X1_methods_are_atomic :
  Forall (fun m : string * (UsersManager.t -> list value -> prog value) =>
            forall this arguments (w : world remote),
              atomic answer (UsersManager.clients this) (snd m this arguments) w)
    UsersManager.prototype.
Proof.
  unfold UsersManager.prototype.
  repeat (apply List.Forall_cons; [intros this arguments w; cbn [snd] |]);
    try apply List.Forall_nil.
  - unfold UsersManager.create. atomic_cascade.
  - unfold UsersManager.getAll. atomic_cascade.
  - unfold UsersManager.get. atomic_cascade.
  - unfold UsersManager.update. atomic_cascade.
  - unfold UsersManager.updateUserMetadata. atomic_cascade.
  - unfold UsersManager.updateAppMetadata. atomic_cascade.
  - apply atomic_delete.
  - unfold UsersManager.deleteAll. atomic_cascade.
  - rewrite deleteMultifactorProvider_eval. atomic_cascade.
  - unfold UsersManager.link. atomic_cascade.
  - rewrite unlink_eval. atomic_cascade.
  - rewrite logs_eval. atomic_cascade.
  - unfold UsersManager.getGuardianEnrollments. atomic_cascade.
  - unfold UsersManager.regenerateRecoveryCode. rewrite no_id_eval.
    change (Ret ?x ≫= ?f) with (f x). cbv beta. atomic_cascade.
  - unfold UsersManager.invalidateRememberBrowser. rewrite no_id_eval.
    change (Ret ?x ≫= ?f) with (f x). cbv beta. atomic_cascade.
  - unfold UsersManager.getRoles. atomic_cascade.
  - apply atomic_assign_to. atomic_cascade.
  - apply atomic_remove_from. atomic_cascade.
  - unfold UsersManager.getPermissions. atomic_cascade.
  - apply atomic_assign_to. atomic_cascade.
  - apply atomic_remove_from. atomic_cascade.
  - unfold UsersManager.getUserOrganizations. atomic_cascade.
Qed.

(** ** Roles and permissions *)

Lemma nonempty_string_truthy (v : value) : nonempty_string v -> truthy v = true.
Proof. intros (s & -> & Hne). simpl. by rewrite (eqb_empty_false s Hne). Qed.

Lemma truthy_string_nonempty (v : value) :
  truthy v = true -> is_string v -> nonempty_string v.
Proof.
  intros Ht [s ->]. exists s. split; [reflexivity |].
  intros ->. discriminate Ht.
Qed.

Lemma not_nullish_truthy (v : value) : truthy v = true -> ~ nullish v.
Proof. intros Ht [-> | ->]; discriminate Ht. Qed.

Lemma or_else_truthy (v d : value) : truthy v = true -> or_else v d = v.
Proof. intros Ht. unfold or_else. by rewrite Ht. Qed.

Lemma assign_to_behaviour (c : rest_client) :
  writer_behaviour perform (UsersManager.assign_to c) c "create".
Proof.
  intros arguments w params. repeat apply conj.
  - intros Hn. destruct (assign_to_nullish c arguments Hn) as [m ->]. by exists m.
  - intros Hn Hid. unfold throws. rewrite (assign_to_eval c arguments Hn).
    fold params. by rewrite Hid.
  - intros Hid Hs. unfold throws.
    rewrite (assign_to_eval c arguments (not_nullish_truthy _ (truthy_field _ _ Hid))).
    fold params. rewrite Hid. cbn [negb].
    rewrite bool_decide_eq_false_2; [reflexivity |].
    intros Ht. by apply Hs, typeof_string.
  - intros Hid. pose proof (nonempty_string_truthy _ Hid) as Ht.
    pose proof (truthy_field _ _ Ht) as Hp.
    rewrite (assign_to_eval c arguments (not_nullish_truthy _ Hp)).
    fold params. rewrite Ht. cbn [negb].
    rewrite bool_decide_eq_true_2.
    + cbn [negb]. rewrite (or_else_truthy params _ Hp). apply issues_one_invoke_cb.
    + destruct Hid as (s & -> & _). reflexivity.
Qed.

Lemma remove_from_behaviour (c : rest_client) :
  writer_behaviour perform (UsersManager.remove_from c) c "delete".
Proof.
  intros arguments w params. repeat apply conj.
  - intros Hn. destruct (remove_from_nullish c arguments Hn) as [m ->]. by exists m.
  - intros Hn Hid. unfold throws. rewrite (remove_from_eval c arguments Hn).
    fold params. by rewrite Hid.
  - intros Hid Hs. unfold throws.
    rewrite (remove_from_eval c arguments (not_nullish_truthy _ (truthy_field _ _ Hid))).
    fold params. rewrite Hid. cbn [negb].
    rewrite bool_decide_eq_false_2; [reflexivity |].
    intros Ht. by apply Hs, typeof_string.
  - intros Hid. pose proof (nonempty_string_truthy _ Hid) as Ht.
    pose proof (truthy_field _ _ Ht) as Hp.
    rewrite (remove_from_eval c arguments (not_nullish_truthy _ Hp)).
    fold params. rewrite Ht. cbn [negb].
    rewrite bool_decide_eq_true_2.
    + cbn [negb]. rewrite (or_else_truthy params _ Hp). apply issues_one_invoke_cb.
    + destruct Hid as (s & -> & _). reflexivity.
Qed.

(** X2: [assignRoles], [removeRoles], [assignPermissions] and
    [removePermissions] read [params.id] on [params] itself, not on the
    defaulted [query]: called with [params] [undefined] or [null] they end
    in a [TypeError], not an [ArgumentError].  On any other [params], a
    falsy id (also [0] or the empty string) is reported as "cannot be null
    or undefined", a truthy id that is not a string as "has to be a
    string", and a non-empty string id leads to one [create], respectively
    [delete], call on the roles, respectively permissions, client with
    [params] itself and [data || {}].  The readers [getRoles] and
    [getPermissions] check nothing. *)
Theorem X2_roles_and_permissions (this : UsersManager.t) :
  writer_behaviour perform (UsersManager.assignRoles this)
    (UsersManager.roles this) "create"
  /\ writer_behaviour perform (UsersManager.removeRoles this)
       (UsersManager.roles this) "delete"
  /\ writer_behaviour perform (UsersManager.assignPermissions this)
       (UsersManager.permissions this) "create"
  /\ writer_behaviour perform (UsersManager.removePermissions this)
       (UsersManager.permissions this) "delete"
  /\ (forall arguments (w : world remote),
        issues_one perform (UsersManager.getRoles this arguments) w
          (Call (UsersManager.roles this) "getAll" arguments)
        /\ issues_one perform (UsersManager.getPermissions this arguments) w
             (Call (UsersManager.permissions this) "getAll" arguments)).
Proof.
  split; [apply assign_to_behaviour |].
  split; [apply remove_from_behaviour |].
  split; [apply assign_to_behaviour |].
  split; [apply remove_from_behaviour |].
  intros arguments w. split; apply issues_one_invoke.
Qed.

End Shapes.

(** ** What the methods throw *)

Section Throwing.
Context {remote X : Type}.
Variable perform : call -> remote -> value * remote.
Variable answer : call -> remote -> (X + value) * remote.

Lemma as_call_ends_not_raised (c : call) (w : world remote) (e : exn) :
  as_call_ends answer c w <> Raised e.
Proof.
  unfold as_call_ends. destruct (fst (answer c (server w))); discriminate.
Qed.

Lemma raises_nothing_invoke (c : rest_client) (m : string) (args : list value)
    (w : world remote) :
  raises_nothing answer (invoke c m args) w.
Proof.
  intros e. rewrite run_raising_invoke. apply as_call_ends_not_raised.
Qed.

Lemma raises_nothing_invoke_cb (c : rest_client) (m : string) (args : list value)
    (cb : value) (w : world remote) :
  raises_nothing answer (invoke_cb c m args cb) w.
Proof.
  intros e. rewrite run_raising_invoke_cb. apply as_call_ends_not_raised.
Qed.

Lemma only_ArgumentError_throw (message : string) (w : world remote) :
  only_ArgumentError answer (Throw (ArgumentError message)) w.
Proof. intros e He. simpl in He. injection He as <-. by eexists. Qed.

Lemma only_ArgumentError_raises_nothing (p : prog value) (w : world remote) :
  raises_nothing answer p w -> only_ArgumentError answer p w.
Proof. intros H e He. destruct (H e He). Qed.

(** Closes a goal [raises_nothing] on a method that only forwards. *)
Ltac forwards :=
  repeat match goal with
         | |- raises_nothing _ (if ?b then _ else _) _ => destruct b
         | |- raises_nothing _ (invoke _ _ _) _ => apply raises_nothing_invoke
         | |- raises_nothing _ (invoke_cb _ _ _ _) _ => apply raises_nothing_invoke_cb
         end.

(** Closes a goal [only_ArgumentError] on a cascade of tests that ends in
    argument errors and client calls. *)
Ltac only_cascade :=
  repeat match goal with
         | |- only_ArgumentError _ (if ?b then _ else _) _ => destruct b
         | |- only_ArgumentError _ (Throw (ArgumentError _)) _ =>
             apply only_ArgumentError_throw
         | |- only_ArgumentError _ (invoke _ _ _) _ =>
             apply only_ArgumentError_raises_nothing, raises_nothing_invoke
         | |- only_ArgumentError _ (invoke_cb _ _ _ _) _ =>
             apply only_ArgumentError_raises_nothing, raises_nothing_invoke_cb
         end.

(** X3: which exceptions are the methods' own, as opposed to what the
    client throws and they pass on.  On arguments that are plain data, the
    ten methods that only forward ([create], [getAll], [get], [update],
    [updateUserMetadata], [updateAppMetadata], [getGuardianEnrollments],
    [getRoles], [getPermissions], [getUserOrganizations]) throw nothing of
    their own; the seven that test their arguments ([deleteAll],
    [deleteMultifactorProvider], [link], [unlink], [logs],
    [regenerateRecoveryCode], [invalidateRememberBrowser]) throw nothing
    of their own but [ArgumentError]s; and so does [delete], unless its
    [params] is [null]. *)
Theorem X3_only_ArgumentError :
  Forall (fun f : UsersManager.t -> list value -> prog value =>
            forall this arguments (w : world remote),
              raises_nothing answer (f this arguments) w)
    [ UsersManager.create; UsersManager.getAll; UsersManager.get;
      UsersManager.update; UsersManager.updateUserMetadata;
      UsersManager.updateAppMetadata; UsersManager.getGuardianEnrollments;
      UsersManager.getRoles; UsersManager.getPermissions;
      UsersManager.getUserOrganizations ]
  /\ Forall (fun f : UsersManager.t -> list value -> prog value =>
               forall this arguments (w : world remote),
                 only_ArgumentError answer (f this arguments) w)
       [ UsersManager.deleteAll; UsersManager.deleteMultifactorProvider;
         UsersManager.link; UsersManager.unlink; UsersManager.logs;
         UsersManager.regenerateRecoveryCode;
         UsersManager.invalidateRememberBrowser ]
  /\ (forall this arguments (w : world remote),
        arg 0 arguments <> VNull ->
        only_ArgumentError answer (UsersManager.delete this arguments) w).
Proof.
  split; [| split].
  - repeat (apply List.Forall_cons; [intros this arguments w |]);
      try apply List.Forall_nil.
    + unfold UsersManager.create. forwards.
    + unfold UsersManager.getAll. forwards.
    + unfold UsersManager.get. forwards.
    + unfold UsersManager.update. forwards.
    + unfold UsersManager.updateUserMetadata. forwards.
    + unfold UsersManager.updateAppMetadata. forwards.
    + unfold UsersManager.getGuardianEnrollments. forwards.
    + unfold UsersManager.getRoles. forwards.
    + unfold UsersManager.getPermissions. forwards.
    + unfold UsersManager.getUserOrganizations. forwards.
  - repeat (apply List.Forall_cons; [intros this arguments w |]);
      try apply List.Forall_nil.
    + unfold UsersManager.deleteAll. only_cascade.
    + rewrite deleteMultifactorProvider_eval. only_cascade.
    + unfold UsersManager.link. only_cascade.
    + rewrite unlink_eval. only_cascade.
    + rewrite logs_eval. only_cascade.
    + unfold UsersManager.regenerateRecoveryCode. rewrite no_id_eval.
      change (Ret ?x ≫= ?f) with (f x). cbv beta. only_cascade.
    + unfold UsersManager.invalidateRememberBrowser. rewrite no_id_eval.
      change (Ret ?x ≫= ?f) with (f x). cbv beta. only_cascade.
  - intros this arguments w Hnull. rewrite delete_eval.
    destruct (arg 0 arguments); try contradiction; only_cascade.
Qed.

(** X4: [link] tests the user id before anything else.  A falsy [userId]
    (also [0] or the empty string) is reported as "cannot be null or
    undefined", a truthy one that is not a string as "has to be a string";
    for a non-empty string, [link] makes one [create] call on the
    identities client whose query holds the id alone and whose body is
    [params || {}], followed by the callback only when it is a
    function. *)
Theorem X4_link (this : UsersManager.t) (arguments : list value) (w : world remote) :
  let userId := arg 0 arguments in
  (truthy userId = false ->
     throws perform (UsersManager.link this arguments) w
       (ArgumentError "The userId cannot be null or undefined"))
  /\ (truthy userId = true -> ~ is_string userId ->
      throws perform (UsersManager.link this arguments) w
        (ArgumentError "The userId has to be a string"))
  /\ (nonempty_string userId ->
      issues_one perform (UsersManager.link this arguments) w
        (Call (UsersManager.identities this) "create"
           ([VObject {["id" := userId]}; or_else (arg 1 arguments) empty_object]
            ++ callback_args (arg 2 arguments)))).
Proof.
  intros userId. unfold throws, UsersManager.link. fold userId. repeat apply conj.
  - intros ->. reflexivity.
  - intros -> Hs. cbn [negb].
    rewrite bool_decide_eq_false_2; [reflexivity |].
    intros Ht. by apply Hs, typeof_string.
  - intros Hid. rewrite (nonempty_string_truthy _ Hid). cbn [negb].
    rewrite bool_decide_eq_true_2.
    + cbn [negb]. rewrite insert_empty. apply issues_one_invoke_cb.
    + destruct Hid as (s & -> & _). reflexivity.
Qed.

(** X5: [logs] refuses, with "id field is required", every [params] whose
    id is not a non-empty string, [params] missing included; otherwise it
    makes one [get] call on the logs client with exactly its first two
    arguments: the second one is passed on whatever it is, and anything
    after it is dropped. *)
Theorem X5_logs (this : UsersManager.t) (arguments : list value) (w : world remote) :
  let params := or_else (arg 0 arguments) empty_object in
  (~ nonempty_string (field params "id") ->
     throws perform (UsersManager.logs this arguments) w
       (ArgumentError "id field is required"))
  /\ (nonempty_string (field params "id") ->
      issues_one perform (UsersManager.logs this arguments) w
        (Call (UsersManager.userLogs this) "get" [arg 0 arguments; arg 1 arguments])).
Proof.
  intros params. split.
  - intros H. unfold throws. rewrite logs_eval. fold params.
    by rewrite (missing_or_not_string_true _ H).
  - intros H. rewrite logs_eval. fold params.
    pose proof H as Hf. apply missing_or_not_string_false in Hf. rewrite Hf.
    assert (params = arg 0 arguments) as <-.
    { apply or_else_truthy. unfold params, or_else in H |- *.
      destruct (truthy (arg 0 arguments)) eqn:T; [reflexivity |].
      destruct H as (s & Hs & _). discriminate Hs. }
    apply issues_one_invoke.
Qed.

(** X6: [deleteMultifactorProvider] and [unlink] report the first field
    that fails, in the order of their tests: the id before the provider,
    and for [unlink] the id, then [user_id], then the provider.  With all
    its fields non-empty strings, [deleteMultifactorProvider] makes one
    [delete] call on the multifactor client; and whatever [unlink]
    accepts, [deleteMultifactorProvider] accepts too. *)
Theorem X6_first_failing_field (this : UsersManager.t) (arguments : list value)
    (w : world remote) :
  let params := or_else (arg 0 arguments) empty_object in
  let ok k := nonempty_string (field params k) in
  (~ ok "id" ->
     throws perform (UsersManager.deleteMultifactorProvider this arguments) w
       (ArgumentError "The id parameter must be a valid user id")
     /\ throws perform (UsersManager.unlink this arguments) w
          (ArgumentError "id field is required"))
  /\ (ok "id" -> ~ ok "user_id" ->
      throws perform (UsersManager.unlink this arguments) w
        (ArgumentError "user_id field is required"))
  /\ (ok "id" -> ~ ok "provider" ->
      throws perform (UsersManager.deleteMultifactorProvider this arguments) w
        (ArgumentError "Must specify a provider"))
  /\ (ok "id" -> ok "user_id" -> ~ ok "provider" ->
      throws perform (UsersManager.unlink this arguments) w
        (ArgumentError "provider field is required"))
  /\ (ok "id" -> ok "provider" ->
      issues_one perform (UsersManager.deleteMultifactorProvider this arguments) w
        (Call (UsersManager.multifactor this) "delete"
           ([params] ++ callback_args (arg 1 arguments))))
  /\ (returns perform (UsersManager.unlink this arguments) w ->
      returns perform (UsersManager.deleteMultifactorProvider this arguments) w).
Proof.
  intros params ok. unfold ok, throws.
  rewrite deleteMultifactorProvider_eval, unlink_eval. fold params.
  repeat apply conj.
  - intros H. rewrite (missing_or_not_string_true _ H). split; reflexivity.
  - intros H1 H2. apply missing_or_not_string_false in H1.
    by rewrite H1, (missing_or_not_string_true _ H2).
  - intros H1 H2. apply missing_or_not_string_false in H1.
    by rewrite H1, (missing_or_not_string_true _ H2).
  - intros H1 H2 H3. apply missing_or_not_string_false in H1, H2.
    by rewrite H1, H2, (missing_or_not_string_true _ H3).
  - intros H1 H2. apply missing_or_not_string_false in H1, H2.
    rewrite H1, H2. apply issues_one_invoke_cb.
  - intros [v Hv].
    destruct (negb (truthy (field params "id")) || _) eqn:T1; [discriminate Hv |].
    destruct (negb (truthy (field params "user_id")) || _) eqn:T2; [discriminate Hv |].
    destruct (negb (truthy (field params "provider")) || _) eqn:T3; [discriminate Hv |].
    eexists.
    rewrite (issues_one_invoke_cb perform (UsersManager.multifactor this) "delete"
               [params] (arg 1 arguments) w).
    reflexivity.
Qed.

End Throwing.

(** ** Edge cases of the identifying parameters *)

Section Edges.
Context {remote : Type}.
Variable perform : call -> remote -> value * remote.

(** X7: an empty string passes as an id in [delete] and nowhere else.  For
    [params] with [id: ''], [delete] forwards its arguments to the users
    client, while [deleteMultifactorProvider], [unlink], [logs],
    [regenerateRecoveryCode], [invalidateRememberBrowser] and the four
    writers of roles and permissions raise an [ArgumentError], as [link]
    does for the user id ['']. *)
Theorem X7_empty_id (this : UsersManager.t) (props : gmap string value)
    (rest : list value) (w : world remote) :
  props !! "id" = Some (VStr "") ->
  let arguments := VObject props :: rest in
  issues_one perform (UsersManager.delete this arguments) w
    (Call (UsersManager.users this) "delete" arguments)
  /\ Forall (fun f : UsersManager.t -> list value -> prog value =>
               raises_ArgumentError perform (f this arguments) w)
       [ UsersManager.deleteMultifactorProvider; UsersManager.unlink;
         UsersManager.logs; UsersManager.regenerateRecoveryCode;
         UsersManager.invalidateRememberBrowser; UsersManager.assignRoles;
         UsersManager.removeRoles; UsersManager.assignPermissions;
         UsersManager.removePermissions ]
  /\ raises_ArgumentError perform (UsersManager.link this (VStr "" :: rest)) w.
Proof.
  intros Hid arguments.
  assert (field (VObject props) "id" = VStr "") as Hf.
  { unfold field. simpl. by rewrite Hid. }
  assert (~ nullish (arg 0 arguments)) as Hn.
  { intros [E | E]; discriminate E. }
  split; [| split].
  - rewrite (delete_object this arguments props eq_refl), Hf. apply issues_one_invoke.
  - unfold raises_ArgumentError, throws.
    repeat (apply List.Forall_cons; [| ]); try apply List.Forall_nil.
    + rewrite deleteMultifactorProvider_eval.
      change (or_else (arg 0 arguments) empty_object) with (VObject props).
      rewrite Hf. by eexists.
    + rewrite unlink_eval.
      change (or_else (arg 0 arguments) empty_object) with (VObject props).
      rewrite Hf. by eexists.
    + rewrite logs_eval.
      change (or_else (arg 0 arguments) empty_object) with (VObject props).
      rewrite Hf. by eexists.
    + unfold UsersManager.regenerateRecoveryCode. rewrite no_id_eval.
      change (arg 0 arguments) with (VObject props). rewrite Hf. by eexists.
    + unfold UsersManager.invalidateRememberBrowser. rewrite no_id_eval.
      change (arg 0 arguments) with (VObject props). rewrite Hf. by eexists.
    + unfold UsersManager.assignRoles. rewrite (assign_to_eval _ arguments Hn).
      change (arg 0 arguments) with (VObject props). rewrite Hf. by eexists.
    + unfold UsersManager.removeRoles. rewrite (remove_from_eval _ arguments Hn).
      change (arg 0 arguments) with (VObject props). rewrite Hf. by eexists.
    + unfold UsersManager.assignPermissions. rewrite (assign_to_eval _ arguments Hn).
      change (arg 0 arguments) with (VObject props). rewrite Hf. by eexists.
    + unfold UsersManager.removePermissions. rewrite (remove_from_eval _ arguments Hn).
      change (arg 0 arguments) with (VObject props). rewrite Hf. by eexists.
  - by eexists.
Qed.

(** X8: no argument list is accepted by both [delete] and [deleteAll]:
    the first wants an object, the second a function, in the same
    position.  Called without arguments, each raises its
    [ArgumentError]. *)
Theorem X8_delete_or_deleteAll (this : UsersManager.t) (arguments : list value)
    (w : world remote) :
  ~ (returns perform (UsersManager.delete this arguments) w
     /\ returns perform (UsersManager.deleteAll this arguments) w)
  /\ throws perform (UsersManager.delete this []) w
       (ArgumentError "You must provide an id for the delete method")
  /\ throws perform (UsersManager.deleteAll this []) w
       (ArgumentError "The deleteAll method only accepts a callback as argument").
Proof.
  split; [| split; reflexivity].
  intros [[v Hv] [v' Hv']].
  destruct (decide (typeof (arg 0 arguments) = TObject)) as [Ho | Ho].
  - unfold UsersManager.deleteAll in Hv'.
    rewrite bool_decide_eq_false_2 in Hv' by (rewrite Ho; discriminate).
    discriminate Hv'.
  - destruct (delete_not_object perform this arguments w Ho) as [m Hm].
    unfold throws in Hm. rewrite Hm in Hv. discriminate Hv.
Qed.

(** X9: the two metadata methods are [update] with the metadata wrapped:
    [updateUserMetadata(params, metadata, cb)] runs as
    [update(params, {user_metadata: metadata})] does, with the callback
    added when it is a function, and [updateAppMetadata] likewise under
    [app_metadata].  The body holds that one key: no other field, the other
    metadata family included, is sent. *)
Theorem X9_metadata_is_update (this : UsersManager.t) (arguments : list value)
    (w : world remote) :
  let params := arg 0 arguments in
  let metadata := arg 1 arguments in
  let cb := arg 2 arguments in
  run perform (UsersManager.updateUserMetadata this arguments) w
  = run perform
      (UsersManager.update this
         ([params; VObject {["user_metadata" := metadata]}] ++ callback_args cb)) w
  /\ run perform (UsersManager.updateAppMetadata this arguments) w
     = run perform
         (UsersManager.update this
            ([params; VObject {["app_metadata" := metadata]}] ++ callback_args cb)) w
  /\ (forall k, k <> "user_metadata" ->
        field (VObject {["user_metadata" := metadata]}) k = VUndefined)
  /\ (forall k, k <> "app_metadata" ->
        field (VObject {["app_metadata" := metadata]}) k = VUndefined).
Proof.
  intros params metadata cb.
  split; [| split; [| split]].
  - unfold UsersManager.updateUserMetadata, UsersManager.update.
    rewrite insert_empty. fold params metadata cb.
    rewrite (issues_one_invoke_cb perform _ "patch" _ cb w).
    by rewrite (issues_one_invoke perform _ "patch" _ w).
  - unfold UsersManager.updateAppMetadata, UsersManager.update.
    rewrite insert_empty. fold params metadata cb.
    rewrite (issues_one_invoke_cb perform _ "patch" _ cb w).
    by rewrite (issues_one_invoke perform _ "patch" _ w).
  - intros k Hk. unfold field. simpl. by rewrite lookup_singleton_ne.
  - intros k Hk. unfold field. simpl. by rewrite lookup_singleton_ne.
Qed.

End Edges.

(** ** More on construction *)

Lemma append_inj_l (b s1 s2 : string) : (b ++ s1 = b ++ s2)%string -> s1 = s2.
Proof.
  induction b as [| c b IH]; [done |].
  change (String c (b ++ s1) = String c (b ++ s2) -> s1 = s2)%string.
  intros H. injection H as H. by apply IH.
Qed.

Section Wiring.
Context {remote : Type}.
Variable perform : call -> remote -> value * remote.

(** X10: the constructors report the first test that fails, each with its
    own message.  An [options] that is [null] or not an object gives "Must
    provide manager options" in [UsersManager] and "Must provide client
    options" in [ConnectionsManager]; an options object whose [baseUrl] is
    [null] or missing gives "Must provide a base URL for the API"; any
    other [baseUrl] that is not a non-empty string gives "The provided base
    URL is invalid". *)
Theorem X10_constructor_messages (options : value) (w : world remote) :
  (options = VNull \/ typeof options <> TObject ->
     throws perform (UsersManager.new options) w
       (ArgumentError "Must provide manager options")
     /\ throws perform (ConnectionsManager.new options) w
          (ArgumentError "Must provide client options"))
  /\ (proper_object options -> nullish (field options "baseUrl") ->
      throws perform (UsersManager.new options) w
        (ArgumentError "Must provide a base URL for the API")
      /\ throws perform (ConnectionsManager.new options) w
           (ArgumentError "Must provide a base URL for the API"))
  /\ (proper_object options -> ~ nullish (field options "baseUrl") ->
      ~ nonempty_string (field options "baseUrl") ->
      throws perform (UsersManager.new options) w
        (ArgumentError "The provided base URL is invalid")
      /\ throws perform (ConnectionsManager.new options) w
           (ArgumentError "The provided base URL is invalid")).
Proof.
  unfold throws, UsersManager.new, ConnectionsManager.new. repeat apply conj.
  - intros [-> | H]; [split; reflexivity |].
    destruct options; try contradiction; split; reflexivity.
  - intros [props ->]. unfold field. simpl.
    destruct (props !! "baseUrl") as [v |]; simpl;
      [intros [E | E]; subst v | intros _]; split; reflexivity.
  - intros [props ->]. unfold field. simpl.
    destruct (props !! "baseUrl") as [[| | b | n | | s | ps | ps] |]; simpl;
      intros Hn Hs;
      try (exfalso; apply Hn; (by left) || (by right));
      try (split; reflexivity).
    rewrite length_zero_empty.
    destruct s as [| c s]; [split; reflexivity |].
    exfalso. apply Hs. by eexists.
Qed.


Variable newAuth0RestClient : value -> value -> value -> prog (rest_client * value).
Variable newRetryRestClient : rest_client -> value -> prog rest_client.

Lemma run_bind_returned {A B : Type} (p : prog A) (f : A -> prog B)
    (w w' : world remote) (b : B) :
  run perform (p ≫= f) w = (Returned b, w') ->
  exists a w1, run perform p w = (Returned a, w1)
               /\ run perform (f a) w1 = (Returned b, w').
Proof.
  rewrite run_bind. destruct (run perform p w) as [[a | e] w1]; [| discriminate].
  intros H. by exists a, w1.
Qed.

(** X12: what the caller configures reaches every client, whenever the
    construction of a [UsersManager] returns.  Then [options.baseUrl] is a
    non-empty string, and each of the eleven clients stored in the manager
    is what the constructor of the retry client returned for
    [options.retry] and the Auth0 client that its constructor returned for
    [options.tokenProvider] and the template of the endpoint, the base URL
    followed by its path; the twenty-two constructions ran in source order
    and all returned.  The client options that the first of them receives
    carry [options.headers] as given and [repeatParams: false]; the later
    ones receive that object as the earlier ones left it.  No two clients
    were given the same template. *)
Theorem X12_clients_wiring (options : value) (this : UsersManager.t)
    (w w' : world remote) :
  run perform (UsersManager.construct newAuth0RestClient newRetryRestClient options) w
  = (Returned this, w') ->
  exists b,
    field options "baseUrl" = VStr b /\ b <> ""
    /\ wired perform newAuth0RestClient newRetryRestClient b
         (field options "tokenProvider") (field options "retry")
         users_paths (UsersManager.clients this)
         (UsersManager.clientOptions (field options "headers")) w w'
    /\ field (UsersManager.clientOptions (field options "headers")) "headers"
       = field options "headers"
    /\ field (field (UsersManager.clientOptions (field options "headers")) "query")
         "repeatParams" = VBool false
    /\ NoDup (map (fun path => VStr (b ++ path)) users_paths).
Proof.
  intros H. destruct (options_cases options) as [Hr | (props & -> & b & Hs & Hne)].
  { destruct (UsersManager_construct_refused perform newAuth0RestClient
                newRetryRestClient options w Hr) as [m Hm].
    unfold throws in Hm. rewrite Hm in H. discriminate H. }
  exists b. split; [exact Hs |]. split; [exact Hne |].
  split; [| split; [| split]].
  - assert (props !! "baseUrl" = Some (VStr b)) as Hb.
    { unfold field in Hs. simpl in Hs.
      destruct (props !! "baseUrl") as [v |]; simpl in Hs; congruence. }
    unfold UsersManager.construct in H. simpl in H. rewrite Hb in H. simpl in H.
    rewrite length_zero_empty, (eqb_empty_false b Hne) in H. simpl in H.
    repeat (apply run_bind_returned in H as ([? ?] & ? & ? & H);
            apply run_bind_returned in H as (? & ? & ? & H)).
    simpl in H. injection H as <- <-.
    unfold users_paths, UsersManager.clients. simpl.
    repeat (eexists; eexists; eexists; eexists;
            split; [eassumption |]; split; [eassumption |]).
    reflexivity.
  - unfold UsersManager.clientOptions, field. simpl.
    rewrite lookup_insert_ne by discriminate. by rewrite lookup_insert_eq.
  - reflexivity.
  - change (NoDup ((fun path => VStr (b ++ path)) <$> users_paths)).
    apply NoDup_fmap_2.
    + intros s1 s2 E. injection E as E. by apply append_inj_l in E.
    + apply (bool_decide_unpack _). vm_compute. reflexivity.
Qed.

End Wiring.

(** ** The constructor of the legacy Users class *)

Section Legacy.
Context {remote U : Type}.
Variable perform : call -> remote -> value * remote.
Variable ToString : value -> prog string.
Variable newRestClient : value -> value -> prog rest_client.
Variable MetadataUpdater : value -> prog U.

(** X13: the legacy [Users] constructor checks nothing.  On [undefined] or
    [null] it ends in a [TypeError] at the first read, before anything is
    converted or built.  On any other [options] whose [baseUrl] and
    [accessToken] are each missing or a string, a missing one turns into
    the text ['undefined']: the REST client is constructed for the
    template [baseUrl + '/users/:userId'] with the header
    [Authorization: 'Bearer ' + accessToken], and the metadata updater
    after it and only if that construction returned; the constructor ends
    as the first of the two that throws does, or returns what the two
    returned.  Fields that hold anything else are converted by code of
    their own and are left out. *)
Theorem X13_legacy_constructor (options : value) (w : world remote) :
  (nullish options ->
     exists message,
       throws perform (Users.new ToString newRestClient MetadataUpdater options) w
         (TypeError message))
  /\ (~ nullish options ->
      absent_or_string (field options "baseUrl") ->
      absent_or_string (field options "accessToken") ->
      ToString VUndefined = Ret "undefined" ->
      (forall s, ToString (VStr s) = Ret s) ->
      let template := VStr (text_of (field options "baseUrl") ++ "/users/:userId") in
      let clientOptions :=
        VObject
          {["headers" :=
              VObject
                {["Authorization" :=
                    VStr ("Bearer " ++ text_of (field options "accessToken"))]}]} in
      run perform (Users.new ToString newRestClient MetadataUpdater options) w
      = match run perform (newRestClient template clientOptions) w with
        | (Returned resource, w1) =>
            match run perform (MetadataUpdater options) w1 with
            | (Returned updater, w2) =>
                (Returned (Users.Build resource, updater), w2)
            | (Thrown e, w2) => (Thrown e, w2)
            end
        | (Thrown e, w1) => (Thrown e, w1)
        end).
Proof.
  split.
  - intros [-> | ->]; eexists; reflexivity.
  - intros Hn Hb Ha Hu Hs template clientOptions. unfold Users.new.
    assert (options <> VUndefined /\ options <> VNull) as [H1 H2].
    { split; intros E; apply Hn; [by left | by right]. }
    assert (forall v, absent_or_string v -> ToString v = Ret (text_of v)) as Ht.
    { intros v [-> | [s ->]]; [exact Hu | apply Hs]. }
    rewrite !(read_field options _ H1 H2).
    change (Ret ?x ≫= ?f) with (f x). cbv beta. rewrite (Ht _ Ha).
    change (Ret ?x ≫= ?f) with (f x). cbv beta.
    change (Ret ?x ≫= ?f) with (f x). cbv beta. rewrite (Ht _ Hb).
    change (Ret ?x ≫= ?f) with (f x). cbv beta.
    rewrite !insert_empty. fold template clientOptions.
    rewrite run_bind.
    destruct (run perform (newRestClient template clientOptions) w)
      as [[resource | e] w1]; [| reflexivity].
    rewrite run_bind.
    destruct (run perform (MetadataUpdater options) w1) as [[u | e] w2]; reflexivity.
Qed.

End Legacy.

(** ** The further properties at concrete arguments *)

(** [assignRoles({id: 'auth0|1'}, {})] creates; [removeRoles()] ends in a
    [TypeError]. *)
Lemma X2_roles_and_permissions_witness :
  issues_one idle
    (UsersManager.assignRoles tenant_users [some_user; VObject ∅]) fresh
    (Call (UsersManager.roles tenant_users) "create" [some_user; VObject ∅])
  /\ exists message,
       throws idle (UsersManager.removeRoles tenant_users []) fresh (TypeError message).
Proof.
  destruct (X2_roles_and_permissions idle tenant_users) as (Hassign & Hremove & _).
  split.
  - apply (Hassign [some_user; VObject ∅] fresh). by eexists.
  - apply (Hremove [] fresh). by left.
Defined.

(** [delete()] can only raise an [ArgumentError]. *)
Lemma X3_only_ArgumentError_witness :
  only_ArgumentError unavailable (UsersManager.delete tenant_users []) fresh.
Proof.
  apply (proj2 (proj2 (X3_only_ArgumentError unavailable)) tenant_users [] fresh).
  discriminate.
Defined.

(** [link('auth0|1')] creates an identity with an empty body. *)
Lemma X4_link_witness :
  issues_one idle (UsersManager.link tenant_users [VStr "auth0|1"]) fresh
    (Call (UsersManager.identities tenant_users) "create"
       [VObject {["id" := VStr "auth0|1"]}; VObject ∅]).
Proof.
  apply (X4_link idle tenant_users [VStr "auth0|1"] fresh). by eexists.
Defined.

(** [logs({id: 'auth0|1'}, 'x')] passes the string on. *)
Lemma X5_logs_witness :
  issues_one idle (UsersManager.logs tenant_users [some_user; VStr "x"]) fresh
    (Call (UsersManager.userLogs tenant_users) "get" [some_user; VStr "x"]).
Proof.
  apply (X5_logs idle tenant_users [some_user; VStr "x"] fresh). by eexists.
Defined.

(** With an id but no provider, [deleteMultifactorProvider] asks for the
    provider. *)
Lemma X6_first_failing_field_witness :
  throws idle (UsersManager.deleteMultifactorProvider tenant_users [some_user]) fresh
    (ArgumentError "Must specify a provider").
Proof.
  apply (X6_first_failing_field idle tenant_users [some_user] fresh).
  - by eexists.
  - intros (s & Hs & _). discriminate Hs.
Defined.

(** [delete({id: ''})] is forwarded. *)
Lemma X7_empty_id_witness :
  issues_one idle
    (UsersManager.delete tenant_users [VObject {["id" := VStr ""]}]) fresh
    (Call (UsersManager.users tenant_users) "delete" [VObject {["id" := VStr ""]}]).
Proof.
  apply (X7_empty_id idle tenant_users {["id" := VStr ""]} [] fresh). reflexivity.
Defined.

(** [delete()] asks for an id. *)
Lemma X8_delete_or_deleteAll_witness :
  throws idle (UsersManager.delete tenant_users []) fresh
    (ArgumentError "You must provide an id for the delete method").
Proof. apply (X8_delete_or_deleteAll idle tenant_users [] fresh). Defined.

(** The body of [updateUserMetadata] has no [app_metadata]. *)
Lemma X9_metadata_is_update_witness :
  field (VObject {["user_metadata" := VNum 1]}) "app_metadata" = VUndefined.
Proof.
  destruct (X9_metadata_is_update idle tenant_users [some_user; VNum 1] fresh)
    as (_ & _ & H & _).
  apply (H "app_metadata"). discriminate.
Defined.

(** [new UsersManager(7)] and [new ConnectionsManager(7)] name the
    options. *)
Lemma X10_constructor_messages_witness :
  throws idle (UsersManager.new (VNum 7)) fresh
    (ArgumentError "Must provide manager options")
  /\ throws idle (ConnectionsManager.new (VNum 7)) fresh
       (ArgumentError "Must provide client options").
Proof.
  apply (X10_constructor_messages idle (VNum 7) fresh). right. discriminate.
Defined.


(** The manager of the tenant, built with constructors that only record
    their arguments: its base URL and the distinct templates. *)
Lemma X12_clients_wiring_witness :
  exists b,
    field tenant "baseUrl" = VStr b
    /\ NoDup (map (fun path => VStr (b ++ path)) users_paths).
Proof.
  destruct (X12_clients_wiring idle plain_Auth0RestClient plain_RetryRestClient
              tenant tenant_users fresh fresh)
    as (b & Hb & _ & _ & _ & _ & Hnd).
  - reflexivity.
  - exists b. split; [exact Hb | exact Hnd].
Defined.

(** [new Users({})] builds a client for ['undefined/users/:userId'] with
    the header ['Bearer undefined']. *)
Lemma X13_legacy_constructor_witness :
  run idle (Users.new primitive_ToString plain_RestClient no_updater (VObject ∅)) fresh
  = (Returned
       (Users.Build
          (RestClient (VStr "undefined/users/:userId")
             (VObject
                {["headers" :=
                    VObject {["Authorization" := VStr "Bearer undefined"]}]})),
        tt),
     fresh).
Proof.
  rewrite (proj2 (X13_legacy_constructor idle primitive_ToString plain_RestClient
                    no_updater (VObject ∅) fresh)).
  - reflexivity.
  - intros [E | E]; discriminate E.
  - by left.
  - by left.
  - reflexivity.
  - reflexivity.
Defined.
